(** * DataCreator: the generate -> store pipeline of the test-data creator

    A shallow embedding of [DataCreator.py].  The script is an orchestration
    of four libraries (the chat model, [json], [pandas]/[sqlalchemy] and
    Streamlit); they are the environment of the program:

    - the chat model and [json.loads] are functions handed to the nodes;
      [json.loads] returns a value or raises;
    - a [pandas] frame is an opaque value built by the [DataFrame]
      constructor, which may raise;
    - the SQLite file is a finite map from table names to frames, and
      [DataFrame.to_sql] is the storage handle handed to the storage node:
      a write completes and leaves a database, or raises and leaves a
      database (a table created and left empty, emptied, or dropped);
    - everything the script shows or writes is appended to a trace.

    Python exceptions are modelled by the [Raise] outcome; the world reached
    when the exception was raised is kept, because Streamlit keeps the
    session and the database across an aborted script run. *)

From Stdlib Require Import ZArith List Ascii String Floats.SpecFloat.
From stdpp Require Import base option list strings gmap fin_maps pretty sorting.

Open Scope string_scope.
Open Scope list_scope.
Set Warnings "-register-all".

(** ** Values produced by [json.loads] *)

Module Json.

(** What [json.loads] can return: [None], [bool], [int], [float], [str],
    [list] and [dict] (keys in insertion order). *)
Inductive json : Type :=
| JNull
| JBool (b : bool)
| JInt (z : Z)
| JFloat (x : spec_float)
| JStr (s : string)
| JArr (items : list json)
| JObj (members : list (string * json)).

(** [isinstance(data, dict)] *)
Definition is_dict (data : json) : bool :=
  match data with JObj _ => true | _ => false end.

(** [isinstance(data, list)] *)
Definition is_list (data : json) : bool :=
  match data with JArr _ => true | _ => false end.

(** A decoded value that is neither a [dict] nor a [list] nor [None]. *)
Definition is_scalar (data : json) : bool :=
  match data with
  | JBool _ | JInt _ | JFloat _ | JStr _ => true
  | JNull | JArr _ | JObj _ => false
  end.

(** Python's truth value, as used by [if not data] and [if generated_data]. *)
Definition truthy (data : json) : bool :=
  match data with
  | JNull => false
  | JBool b => b
  | JInt z => negb (Z.eqb z 0)
  | JFloat x => match x with S754_zero _ => false | _ => true end
  | JStr s => negb (String.eqb s EmptyString)
  | JArr items => match items with [] => false | _ :: _ => true end
  | JObj members => match members with [] => false | _ :: _ => true end
  end.

End Json.
Export Json.

(** ** Exceptions, effects and the world *)

(** A Python exception: its class and its message. *)
Inductive exn : Type :=
| PyExn (cls msg : string).

Definition ValueError (msg : string) : exn := PyExn "ValueError" msg.

Definition JSONDecodeError (msg : string) : exn := PyExn "JSONDecodeError" msg.

(** What [except json.JSONDecodeError] catches. *)
Definition is_json_decode_error (e : exn) : bool :=
  match e with PyExn cls _ => String.eqb cls "JSONDecodeError" end.

(** The [if_exists] argument of [DataFrame.to_sql]. *)
Inductive if_exists : Type :=
| IfFail
| IfReplace
| IfAppend.

(** The two messages the script sends to the chat model. *)
Inductive chat_message : Type :=
| SystemMessage (content : string)
| HumanMessage (content : string).

Section Effects.

(** [Frame] stands for [pandas.DataFrame]. *)
Context {Frame : Type}.

(** What a script run does to the outside, in the order it does it. *)
Inductive event : Type :=
| LlmCall (msgs : list chat_message)
| StTitle (text : string)
| StError (text : string)
| StWarning (text : string)
| StSuccess (text : string)
| StSubheader (text : string)
| StDataframe (df : Frame)
| StWrite (names : list string)
| ToSql (table_name : string) (df : Frame)
| ToSqlFailed (table_name : string) (df : Frame) (e : exn).

(** How a call of [DataFrame.to_sql] ends: it completes, or it raises; in
    both cases it leaves a database. *)
Inductive sql_result : Type :=
| SqlOk (after : gmap string Frame)
| SqlError (e : exn) (after : gmap string Frame).

(** The state that outlives a script run: the tables of [testdata.db]
    under the names SQLite reports for them, [st.session_state] (its
    [messages] key is absent in a fresh session) and the trace of effects
    so far.  SQLite compares table names without regard to case; the
    statements that depend on it say so with [same_table]. *)
Record World : Type := mkWorld {
  db : gmap string Frame;
  session_messages : option (list string);
  trace : list event
}.

(** The result of running a piece of the script from a world. *)
Inductive outcome (A : Type) : Type :=
| Ret (a : A) (w : World)
| Raise (e : exn) (w : World).
Arguments Ret {A} a w.
Arguments Raise {A} e w.

Definition M (A : Type) : Type := World -> outcome A.

Definition ret {A} (a : A) : M A := fun w => Ret a w.

Definition bind {A B} (m : M A) (k : A -> M B) : M B :=
  fun w => match m w with
           | Ret a w' => k a w'
           | Raise e w' => Raise e w'
           end.

Definition raise {A} (e : exn) : M A := fun w => Raise e w.

(** The world in which a run ended, normally or not. *)
Definition world_of {A} (o : outcome A) : World :=
  match o with Ret _ w => w | Raise _ w => w end.

(** The world with more events at the end of its trace. *)
Definition add_events (evs : list event) (w : World) : World :=
  mkWorld (db w) (session_messages w) (trace w ++ evs).

Definition emit (ev : event) : M unit :=
  fun w => Ret tt (add_events [ev] w).

End Effects.
Arguments Ret {Frame A} a w.
Arguments Raise {Frame A} e w.
Arguments mkWorld {Frame} db session_messages trace.
Arguments LlmCall {Frame} msgs.
Arguments StTitle {Frame} text.
Arguments StError {Frame} text.
Arguments StWarning {Frame} text.
Arguments StSuccess {Frame} text.
Arguments StSubheader {Frame} text.
Arguments StDataframe {Frame} df.
Arguments StWrite {Frame} names.
Arguments ToSql {Frame} table_name df.
Arguments ToSqlFailed {Frame} table_name df e.
Arguments SqlOk {Frame} after.
Arguments SqlError {Frame} e after.
Arguments sql_result : clear implicits.
Arguments event : clear implicits.
Arguments World : clear implicits.
Arguments outcome : clear implicits.
Arguments M : clear implicits.

Declare Scope py_scope.
Delimit Scope py_scope with py.
Notation "x <- m ;; k" := (bind m (fun x => k))
  (at level 100, m at next level, right associativity) : py_scope.
Notation "m ;; k" := (bind m (fun _ => k))
  (at level 100, right associativity) : py_scope.

Open Scope py_scope.

(** ** The script *)

(** The double-quote character, for the texts that contain it. *)
Definition dq : string := String (ascii_of_nat 34) EmptyString.

(** [AppState]: the typed dictionary threaded through the graph.  The hint
    of [generated_data] is [List[Dict]], but the value stored there is
    whatever [json.loads] returned, so the field is a [json]. *)
Record AppState : Type := mkAppState {
  messages : list string;
  generated_data : json
}.

Definition system_prompt : string :=
"
You are a data generator. Generate realistic e-commerce order data in JSON format.
Return ONLY a JSON array with objects containing:
customer_id, order_id, product_name, category, price, quantity, date, state, city, payment_method.
Example:
[
 {" +:+ dq +:+ "customer_id" +:+ dq +:+ ": " +:+ dq +:+ "IND1001" +:+ dq +:+
 ", " +:+ dq +:+ "order_id" +:+ dq +:+ ": " +:+ dq +:+ "ORD1001" +:+ dq +:+
 ", " +:+ dq +:+ "product_name" +:+ dq +:+ ": " +:+ dq +:+ "Kurta" +:+ dq +:+
 ", " +:+ dq +:+ "category" +:+ dq +:+ ": " +:+ dq +:+ "Clothing" +:+ dq +:+
 ", " +:+ dq +:+ "price" +:+ dq +:+ ":1200,
  " +:+ dq +:+ "quantity" +:+ dq +:+ ":2, " +:+ dq +:+ "date" +:+ dq +:+ ":" +:+
 dq +:+ "2024-03-08" +:+ dq +:+ ", " +:+ dq +:+ "state" +:+ dq +:+ ":" +:+
 dq +:+ "Maharashtra" +:+ dq +:+ ", " +:+ dq +:+ "city" +:+ dq +:+ ":" +:+
 dq +:+ "Mumbai" +:+ dq +:+ ", " +:+ dq +:+ "payment_method" +:+ dq +:+ ":" +:+
 dq +:+ "Credit Card" +:+ dq +:+ "}
]
Generate exactly 10 records.
".

(** The request sent when the history is empty. *)
Definition default_request : string := "Generate synthetic data".

(** [f"table_{table_number}"] *)
Definition table_name_of (table_number : nat) : string :=
  "table_" +:+ pretty table_number.

Section Script.

Context {Frame : Type}.

(** The chat model: the [content] of its reply to a list of messages. *)
Variable llm : list chat_message -> string.

(** [json.loads]: the decoded value, or the exception it raises
    ([json.JSONDecodeError] on a text that is not JSON; [ValueError] or
    [RecursionError] on some texts that are). *)
Variable json_loads : string -> exn + json.

(** The [DataFrame] constructor on what is not a scalar (a list, a dict or
    [None]): the frame, or the exception [pandas] raises. *)
Variable build_frame : json -> exn + Frame.

(** [len(df)] *)
Variable df_len : Frame -> nat.

(** [DataFrame.to_sql] on the engine: [pandas_to_sql name mode index df d]
    is how the call ends on the database [d]. *)
Variable pandas_to_sql :
  string -> if_exists -> bool -> Frame -> gmap string Frame -> sql_result Frame.

Local Abbreviation World := (World Frame).
Local Abbreviation M := (M Frame).

(** [llm([...])] followed by [.content] *)
Definition llm_invoke (msgs : list chat_message) : M string :=
  emit (LlmCall msgs);; ret (llm msgs).

(** [pd.DataFrame(data)]: the constructor refuses a scalar that comes
    without index and columns, and builds a frame from the rest. *)
Definition pd_DataFrame (data : json) : M Frame :=
  if is_scalar data
  then raise (ValueError "DataFrame constructor not properly called!")
  else match build_frame data with
       | inl e => raise e
       | inr df => ret df
       end.

(** The names SQLite reports, in the order of its [ORDER BY name]. *)
Definition table_names (d : gmap string Frame) : list string :=
  merge_sort (fun a b => Is_true (String.leb a b)) (map fst (map_to_list d)).

(** [inspect(engine).get_table_names()] *)
Definition get_table_names : M (list string) :=
  fun w => Ret (table_names (db w)) w.

(** [df.to_sql(table_name, con=engine, if_exists="replace", index=False)] *)
Definition to_sql (table_name : string) (df : Frame) : M unit :=
  fun w => match pandas_to_sql table_name IfReplace false df (db w) with
           | SqlOk after =>
               Ret tt (mkWorld after (session_messages w)
                               (trace w ++ [ToSql table_name df]))
           | SqlError e after =>
               Raise e (mkWorld after (session_messages w)
                                (trace w ++ [ToSqlFailed table_name df e]))
           end.

(** [state["messages"][-1] if state["messages"] else "Generate synthetic data"] *)
Definition user_request (msgs : list string) : string :=
  match msgs with
  | [] => default_request
  | m :: rest => List.last rest m
  end.

(** The try block of [synthesize_data]. *)
Definition decode_response (content : string) : M json :=
  match json_loads content with
  | inr data => ret (if is_dict data then JArr [data] else data)
  | inl e =>
      if is_json_decode_error e then
        emit (StError "AI did not return valid JSON structured data.");;
        ret (JArr [])
      else raise e
  end.

Definition synthesize_data (state : AppState) : M AppState :=
  let user_msg := user_request (messages state) in
  content <- llm_invoke [SystemMessage system_prompt; HumanMessage user_msg];;
  data <- decode_response content;;
  ret {| messages := messages state; generated_data := data |}.

Definition manage_db (state : AppState) : M AppState :=
  let data := generated_data state in
  if negb (truthy data)
  then emit (StWarning "No data to store in DB");; ret state
  else
    df <- pd_DataFrame data;;
    existing_tables <- get_table_names;;
    let table_number := length existing_tables + 1 in
    let table_name := table_name_of table_number in
    to_sql table_name df;;
    emit (StSuccess ("✅ Stored " +:+ pretty (df_len df) +:+
                     " records in table: " +:+ table_name));;
    ret state.

(** [compiled_graph.invoke]: entry point [synthesize], one edge to [store]. *)
Definition compiled_graph_invoke (inputs : AppState) : M AppState :=
  state <- synthesize_data inputs;;
  manage_db state.

(** The messages [synthesize_data] sends for a history. *)
Definition request_for (history : list string) : list chat_message :=
  [SystemMessage system_prompt; HumanMessage (user_request history)].

(** What [manage_db] appends to the trace when it stores [df]. *)
Definition store_events (d : gmap string Frame) (df : Frame) : list (event Frame) :=
  let table_name := table_name_of (size d + 1) in
  [ToSql table_name df;
   StSuccess ("✅ Stored " +:+ pretty (df_len df) +:+
              " records in table: " +:+ table_name)].

(** The world after [manage_db] stored [df], the write having left the
    database [after]. *)
Definition stored (df : Frame) (after : gmap string Frame) (w : World) : World :=
  mkWorld after (session_messages w) (trace w ++ store_events (db w) df).

(** The world after the write of [df] by [manage_db] raised [e] and left
    the database [after]. *)
Definition write_failed (df : Frame) (e : exn) (after : gmap string Frame)
    (w : World) : World :=
  mkWorld after (session_messages w)
          (trace w ++ [ToSqlFailed (table_name_of (size (db w) + 1)) df e]).

(** [if "messages" not in st.session_state: st.session_state.messages = []] *)
Definition session_init : M unit :=
  fun w => match session_messages w with
           | None => Ret tt (mkWorld (db w) (Some []) (trace w))
           | Some _ => Ret tt w
           end.

(** [st.session_state.messages.append(prompt)] *)
Definition session_append (prompt : string) : M unit :=
  fun w => match session_messages w with
           | None => Raise (PyExn "AttributeError" "st.session_state has no attribute messages") w
           | Some history => Ret tt (mkWorld (db w) (Some (history ++ [prompt])%list) (trace w))
           end.

(** [st.session_state.messages] *)
Definition session_get : M (list string) :=
  fun w => match session_messages w with
           | None => Raise (PyExn "AttributeError" "st.session_state has no attribute messages") w
           | Some history => Ret history w
           end.

(** The display of the records after the run of the graph. *)
Definition show_generated (output : AppState) : M unit :=
  let generated := generated_data output in
  if truthy generated then
    emit (StSubheader "Generated Data");;
    df <- pd_DataFrame generated;;
    emit (StDataframe df)
  else ret tt.

(** The body of [if st.button("Generate & Store"):]. *)
Definition on_button (prompt : string) : M unit :=
  if negb (String.eqb prompt EmptyString) then
    session_append prompt;;
    history <- session_get;;
    let inputs := {| messages := history; generated_data := JArr [] |} in
    output <- compiled_graph_invoke inputs;;
    show_generated output
  else ret tt.

(** The list of tables at the end of the page. *)
Definition show_tables : M unit :=
  emit (StSubheader "Existing Tables in DB");;
  tables <- get_table_names;;
  emit (StWrite tables).

(** One run of the script, top to bottom: [prompt] is what
    [st.text_input] returns and [clicked] what [st.button] returns. *)
Definition script (prompt : string) (clicked : bool) : M unit :=
  emit (StTitle "🧪 Test Data Creator - Phase 2 (LangGraph)");;
  session_init;;
  (if clicked then on_button prompt else ret tt);;
  show_tables.

End Script.

(** ** Sequences of runs *)

(** The names of the writes that completed along a trace, oldest first. *)
Fixpoint written_tables {Frame : Type} (tr : list (event Frame)) : list string :=
  match tr with
  | [] => []
  | ToSql name _ :: rest => name :: written_tables rest
  | _ :: rest => written_tables rest
  end.

(** The names of the writes that raised along a trace, oldest first. *)
Fixpoint failed_writes {Frame : Type} (tr : list (event Frame)) : list string :=
  match tr with
  | [] => []
  | ToSqlFailed name _ _ :: rest => name :: failed_writes rest
  | _ :: rest => failed_writes rest
  end.

(** The session history; an absent key reads as the empty history the
    script initialises it to. *)
Definition history_of {Frame : Type} (w : World Frame) : list string :=
  match session_messages w with
  | Some history => history
  | None => []
  end.

(** [m] never touches [st.session_state], whether it returns or raises. *)
Definition keeps_session {Frame A : Type} (m : M Frame A) : Prop :=
  forall w, session_messages (world_of (m w)) = session_messages w.

(** What one interaction brings from outside: the behaviour of the chat
    model during the run, the content of the text input and whether the
    button was pressed. *)
Record interaction : Type := mkInteraction {
  reply : list chat_message -> string;
  typed : string;
  pressed : bool
}.

(** The interactions that add to the history: the button was pressed on a
    non-empty text input. *)
Definition submits (i : interaction) : bool :=
  pressed i && negb (String.eqb (typed i) EmptyString).

Section Sequences.

Context {Frame : Type}.
Variable json_loads : string -> exn + json.
Variable build_frame : json -> exn + Frame.
Variable df_len : Frame -> nat.
Variable pandas_to_sql :
  string -> if_exists -> bool -> Frame -> gmap string Frame -> sql_result Frame.

(** One invocation of the graph after another; a run that raises leaves
    the world it reached. *)
Definition invoke_all (calls : list ((list chat_message -> string) * AppState))
    (w : World Frame) : World Frame :=
  fold_left
    (fun w call =>
       world_of (compiled_graph_invoke (fst call) json_loads build_frame df_len
                                       pandas_to_sql (snd call) w))
    calls w.

(** One rerun of the script after another, within one browser session. *)
Definition session (runs : list interaction) (w : World Frame) : World Frame :=
  fold_left
    (fun w i =>
       world_of (script (reply i) json_loads build_frame df_len pandas_to_sql
                        (typed i) (pressed i) w))
    runs w.

End Sequences.

(** ** Worlds and observations along a run of the script *)

(** [st.title(...)] *)
Definition page_title : string := "🧪 Test Data Creator - Phase 2 (LangGraph)".

(** The requests sent to the chat model along a trace, oldest first. *)
Fixpoint llm_calls {Frame : Type} (tr : list (event Frame)) : list (list chat_message) :=
  match tr with
  | [] => []
  | LlmCall msgs :: rest => msgs :: llm_calls rest
  | _ :: rest => llm_calls rest
  end.

(** The world once the title is shown and the session history exists. *)
Definition opened {Frame : Type} (w : World Frame) : World Frame :=
  mkWorld (db w) (Some (history_of w)) (trace w ++ [StTitle page_title]).

(** The world in which the graph is invoked after a submit: the text input
    is at the end of the history. *)
Definition started {Frame : Type} (prompt : string) (w : World Frame) : World Frame :=
  mkWorld (db w) (Some (history_of w ++ [prompt])) (trace w ++ [StTitle page_title]).

(** The state the front end hands to the graph after a submit. *)
Definition inputs_for {Frame : Type} (prompt : string) (w : World Frame) : AppState :=
  {| messages := history_of w ++ [prompt]; generated_data := JArr [] |}.

(** What [synthesize_data] hands to [manage_db] for a decoded reply. *)
Definition records_of (data : json) : json :=
  if is_dict data then JArr [data] else data.

(** ** Table names as SQLite compares them *)

Definition lower (c : ascii) : ascii :=
  let n := nat_of_ascii c in
  if ((65 <=? n) && (n <=? 90))%nat then ascii_of_nat (n + 32) else c.

Fixpoint fold_case (s : string) : string :=
  match s with
  | EmptyString => EmptyString
  | String c rest => String (lower c) (fold_case rest)
  end.

(** SQLite takes two names that differ only in the case of ASCII letters
    for the same table. *)
Definition same_table (a b : string) : Prop := fold_case a = fold_case b.

#[global] Instance same_table_dec (a b : string) : Decision (same_table a b).
Proof. unfold same_table. apply _. Defined.

(** What a [to_sql] with [if_exists="replace"] has done when it completes:
    the table holds the frame, no other spelling of its name is left, and
    the other tables are as they were.  Nothing is said of a call that
    raises. *)
Definition replaces_table {Frame : Type}
    (to_sql : string -> if_exists -> bool -> Frame -> gmap string Frame ->
              sql_result Frame) : Prop :=
  forall name index df d after,
    to_sql name IfReplace index df d = SqlOk after ->
    after !! name = Some df
    /\ (forall other, same_table other name -> other <> name -> after !! other = None)
    /\ (forall other, ~ same_table other name -> after !! other = d !! other).

(** The database a call of [to_sql] leaves, completed or not. *)
Definition left_by {Frame : Type} (r : sql_result Frame) : gmap string Frame :=
  match r with
  | SqlOk after => after
  | SqlError _ after => after
  end.

(** No table of [d] is named [name] in any spelling. *)
Definition no_table_named {Frame : Type} (name : string) (d : gmap string Frame) : Prop :=
  forall other, same_table other name -> d !! other = None.

(** ** A decoder and a frame type to run the script on

    The nodes are stated over any [json.loads] and any frame constructor.
    To run them on concrete replies, [JsonText.loads] decodes the fragment
    of JSON made of [null], [true], [false], integers, strings without
    escapes, arrays and objects; a text outside the fragment (a fraction,
    an exponent, an escape) is rejected here although it can be JSON. *)

Module JsonText.

Definition is_ws (c : ascii) : bool :=
  match nat_of_ascii c with
  | 32 | 9 | 10 | 13 => true
  | _ => false
  end.

Definition is_digit (c : ascii) : bool :=
  let n := nat_of_ascii c in ((48 <=? n) && (n <=? 57))%nat.

Definition digit_val (c : ascii) : Z := Z.of_nat (nat_of_ascii c - 48).

Fixpoint skip_ws (s : string) : string :=
  match s with
  | String c r => if is_ws c then skip_ws r else s
  | EmptyString => s
  end.

(** [strip lit s]: what follows [lit] at the head of [s]. *)
Fixpoint strip (lit s : string) : option string :=
  match lit, s with
  | EmptyString, _ => Some s
  | String a lit', String b s' => if Ascii.eqb a b then strip lit' s' else None
  | String _ _, EmptyString => None
  end.

(** The digits at the head of [s], folded into [acc]. *)
Fixpoint digits (acc : Z) (s : string) : Z * string :=
  match s with
  | String c r => if is_digit c then digits (10 * acc + digit_val c)%Z r else (acc, s)
  | EmptyString => (acc, s)
  end.

Definition starts_number_tail (s : string) : bool :=
  match s with
  | String c _ => is_digit c || Ascii.eqb c "."%char || Ascii.eqb c "e"%char
                  || Ascii.eqb c "E"%char
  | EmptyString => false
  end.

(** An integer without sign: [0], or a digit from 1 to 9 and more digits. *)
Definition natural (s : string) : option (Z * string) :=
  match s with
  | String c r =>
      if Ascii.eqb c "0"%char then
        if starts_number_tail r then None else Some (0%Z, r)
      else if is_digit c then
        let '(n, r') := digits (digit_val c) r in
        if starts_number_tail r' then None else Some (n, r')
      else None
  | EmptyString => None
  end.

(** The characters up to the closing quote. *)
Fixpoint string_body (s : string) : option (string * string) :=
  match s with
  | String c r =>
      if Ascii.eqb c (ascii_of_nat 34) then Some (EmptyString, r)
      else if Ascii.eqb c (ascii_of_nat 92) then None
      else if (nat_of_ascii c <? 32)%nat then None
      else match string_body r with
           | Some (body, r') => Some (String c body, r')
           | None => None
           end
  | EmptyString => None
  end.

(** [d[key] = v] on a dict kept in insertion order. *)
Fixpoint dict_set (key : string) (v : json) (d : list (string * json))
  : list (string * json) :=
  match d with
  | [] => [(key, v)]
  | (k, old) :: rest =>
      if String.eqb k key then (k, v) :: rest else (k, old) :: dict_set key v rest
  end.

Fixpoint value (fuel : nat) (s : string) : option (json * string) :=
  match fuel with
  | 0 => None
  | S fuel =>
      match skip_ws s with
      | EmptyString => None
      | String c r =>
          if Ascii.eqb c "["%char then
            match skip_ws r with
            | String c' r' =>
                if Ascii.eqb c' "]"%char then Some (JArr [], r')
                else match elements fuel r with
                     | Some (items, rest) => Some (JArr items, rest)
                     | None => None
                     end
            | EmptyString => None
            end
          else if Ascii.eqb c "{"%char then
            match skip_ws r with
            | String c' r' =>
                if Ascii.eqb c' "}"%char then Some (JObj [], r')
                else match members fuel [] r with
                     | Some (d, rest) => Some (JObj d, rest)
                     | None => None
                     end
            | EmptyString => None
            end
          else if Ascii.eqb c (ascii_of_nat 34) then
            match string_body r with
            | Some (body, rest) => Some (JStr body, rest)
            | None => None
            end
          else if Ascii.eqb c "-"%char then
            match natural r with
            | Some (n, rest) => Some (JInt (- n), rest)
            | None => None
            end
          else if is_digit c then
            match natural (String c r) with
            | Some (n, rest) => Some (JInt n, rest)
            | None => None
            end
          else
            match strip "null" (String c r), strip "true" (String c r),
                  strip "false" (String c r) with
            | Some rest, _, _ => Some (JNull, rest)
            | _, Some rest, _ => Some (JBool true, rest)
            | _, _, Some rest => Some (JBool false, rest)
            | None, None, None => None
            end
      end
  end
with elements (fuel : nat) (s : string) : option (list json * string) :=
  match fuel with
  | 0 => None
  | S fuel =>
      match value fuel s with
      | Some (v, r) =>
          match skip_ws r with
          | String c r' =>
              if Ascii.eqb c ","%char then
                match elements fuel r' with
                | Some (vs, rest) => Some (v :: vs, rest)
                | None => None
                end
              else if Ascii.eqb c "]"%char then Some ([v], r')
              else None
          | EmptyString => None
          end
      | None => None
      end
  end
with members (fuel : nat) (d : list (string * json)) (s : string)
  : option (list (string * json) * string) :=
  match fuel with
  | 0 => None
  | S fuel =>
      match strip dq (skip_ws s) with
      | Some r =>
          match string_body r with
          | Some (key, r1) =>
              match strip ":" (skip_ws r1) with
              | Some r2 =>
                  match value fuel r2 with
                  | Some (v, r3) =>
                      match skip_ws r3 with
                      | String c r4 =>
                          if Ascii.eqb c ","%char then members fuel (dict_set key v d) r4
                          else if Ascii.eqb c "}"%char then Some (dict_set key v d, r4)
                          else None
                      | EmptyString => None
                      end
                  | None => None
                  end
              | None => None
              end
          | None => None
          end
      | None => None
      end
  end.

(** The whole text must be one value, white space apart. *)
Definition loads (text : string) : option json :=
  match value (2 * String.length text + 2) text with
  | Some (v, rest) =>
      match skip_ws rest with
      | EmptyString => Some v
      | String _ _ => None
      end
  | None => None
  end.

End JsonText.

(** A frame type that keeps the rows it was given.  [pandas] does more
    (columns, dtypes); nothing below depends on what it does. *)
Module Demo.

Definition Rows : Type := list json.

Definition rows_frame (data : json) : exn + Rows :=
  match data with
  | JArr items => inr items
  | JNull => inr []
  | _ => inl (ValueError "If using all scalar values, you must pass an index")
  end.

Definition row_count (df : Rows) : nat := length df.

(** [JsonText.loads] as [json.loads]: a rejected text raises
    [JSONDecodeError]. *)
Definition decode (text : string) : exn + json :=
  match JsonText.loads text with
  | Some data => inr data
  | None => inl (JSONDecodeError "Expecting value")
  end.

(** A frame without columns: every row is an empty object or list. *)
Definition no_columns (df : Rows) : bool :=
  forallb (fun row => match row with
                      | JObj [] | JArr [] => true
                      | _ => false
                      end) df.

(** A value SQLite cannot bind as a parameter. *)
Definition unbindable (v : json) : bool :=
  match v with JArr _ | JObj _ => true | _ => false end.

Definition holds_unbindable (df : Rows) : bool :=
  existsb (fun row => match row with
                      | JObj members => existsb (fun kv => unbindable (snd kv)) members
                      | JArr items => existsb unbindable items
                      | _ => false
                      end) df.

(** [DROP TABLE name]: the name is matched without regard to case. *)
Definition drop_table (name : string) (d : gmap string Rows) : gmap string Rows :=
  filter (fun kv => fold_case (fst kv) <> fold_case name) d.

Definition has_table (name : string) (d : gmap string Rows) : bool :=
  existsb (fun kv => String.eqb (fold_case (fst kv)) (fold_case name)) (map_to_list d).

(** A table bears the name in another spelling. *)
Definition spelled_otherwise (name : string) (d : gmap string Rows) : bool :=
  existsb (fun kv => String.eqb (fold_case (fst kv)) (fold_case name)
                     && negb (String.eqb (fst kv) name))
          (map_to_list d).

(** [DROP TABLE], [CREATE TABLE], then the rows: a frame without columns
    is refused at [CREATE TABLE], after the drop; a frame with a value
    that cannot be bound is refused at the rows, the table created and
    empty. *)
Definition create_and_fill (name : string) (df : Rows) (d : gmap string Rows)
  : sql_result Rows :=
  if no_columns df then
    SqlError (PyExn "OperationalError" "syntax error in CREATE TABLE") d
  else if holds_unbindable df then
    SqlError (PyExn "InterfaceError" "Error binding parameter")
             (<[name := []]> d)
  else SqlOk (<[name := df]> d).

(** A storage handle that refuses what SQLite refuses: a name that a table
    bears in another spelling, a frame without columns, a value that
    cannot be bound. *)
Definition sqlite_store (name : string) (mode : if_exists) (index : bool)
    (df : Rows) (d : gmap string Rows) : sql_result Rows :=
  match mode with
  | IfReplace =>
      if spelled_otherwise name d
      then SqlError (PyExn "InvalidRequestError" "table is already defined") d
      else create_and_fill name df (drop_table name d)
  | IfFail =>
      if has_table name d
      then SqlError (ValueError "Table already exists.") d
      else create_and_fill name df d
  | IfAppend =>
      match d !! name with
      | Some rows =>
          if holds_unbindable df
          then SqlError (PyExn "InterfaceError" "Error binding parameter") d
          else SqlOk (<[name := rows ++ df]> d)
      | None => create_and_fill name df d
      end
  end.

(** A chat model that answers [text] whatever it is asked. *)
Definition answers (text : string) : list chat_message -> string :=
  fun _ => text.

(** A new session on an empty database. *)
Definition fresh : World Rows := mkWorld ∅ None [].

(** A session on a database whose only table is [table_2]. *)
Definition only_table_2 : World Rows :=
  mkWorld {[ "table_2" := [JInt 7] ]} (Some []) [].

(** The state the front end builds for a first request. *)
Definition first_request : AppState :=
  {| messages := ["Generate 5 orders for Delhi"]; generated_data := JArr [] |}.

(** The text of a JSON array of two orders. *)
Definition two_orders_text : string :=
  "[{" +:+ dq +:+ "order_id" +:+ dq +:+ ": 1}, {" +:+
  dq +:+ "order_id" +:+ dq +:+ ": 2}]".

Definition two_orders : list json :=
  [JObj [("order_id", JInt 1)]; JObj [("order_id", JInt 2)]].

(** The text of an array whose one order holds a list. *)
Definition nested_order_text : string :=
  "[{" +:+ dq +:+ "items" +:+ dq +:+ ": [1, 2]}]".

Definition nested_order : list json :=
  [JObj [("items", JArr [JInt 1; JInt 2])]].

(** The text of a single JSON object. *)
Definition one_order_text : string :=
  "{" +:+ dq +:+ "order_id" +:+ dq +:+ ": 1, " +:+
  dq +:+ "city" +:+ dq +:+ ": " +:+ dq +:+ "Mumbai" +:+ dq +:+ "}".

Definition one_order : list (string * json) :=
  [("order_id", JInt 1); ("city", JStr "Mumbai")].

(** A state whose records are ready to be stored. *)
Definition ready_to_store : AppState :=
  {| messages := ["Generate 5 orders for Delhi"]; generated_data := JArr two_orders |}.

(** A state whose one record holds a list. *)
Definition nested_ready_to_store : AppState :=
  {| messages := ["Generate 5 orders for Delhi"]; generated_data := JArr nested_order |}.

(** Three runs of the graph: an array, a reply that is not JSON, an object. *)
Definition three_calls : list ((list chat_message -> string) * AppState) :=
  [(answers two_orders_text, first_request);
   (answers "Sorry, I cannot do that.", first_request);
   (answers one_order_text, first_request)].

(** Two runs of the graph: an array whose write raises, then an array. *)
Definition failing_then_fine : list ((list chat_message -> string) * AppState) :=
  [(answers nested_order_text, first_request);
   (answers two_orders_text, first_request)].

(** Two runs of the graph that both store an array. *)
Definition two_calls : list ((list chat_message -> string) * AppState) :=
  [(answers two_orders_text, first_request);
   (answers two_orders_text, first_request)].

(** A session that already holds one request. *)
Definition one_request_made : World Rows :=
  mkWorld ∅ (Some ["Generate 5 orders for Delhi"]) [].

(** The button pressed on an empty text input. *)
Definition empty_submit : interaction :=
  {| reply := answers two_orders_text; typed := EmptyString; pressed := true |}.

(** A session on a database of two tables, one of them not made here. *)
Definition users_and_table_1 : World Rows :=
  mkWorld {[ "users" := [JInt 1]; "table_1" := [JInt 2] ]} (Some []) [].

(** The button pressed on a request for two orders. *)
Definition submit_two_orders : interaction :=
  {| reply := answers two_orders_text; typed := "Generate 2 orders"; pressed := true |}.

(** The button pressed when the model answers with prose. *)
Definition submit_refused : interaction :=
  {| reply := answers "Sorry, I cannot do that."; typed := "Generate 2 orders";
     pressed := true |}.

(** The button pressed when the model answers with a bare number. *)
Definition submit_number : interaction :=
  {| reply := answers "5"; typed := "How many orders?"; pressed := true |}.

(** A rerun caused by typing, the button not pressed. *)
Definition typing_only : interaction :=
  {| reply := answers two_orders_text; typed := "Generate 2 ord"; pressed := false |}.

End Demo.

(** * Properties *)

(** ** Table names *)

Lemma table_names_length {Frame : Type} (d : gmap string Frame) :
  length (table_names d) = size d.
Proof.
  unfold table_names.
  rewrite (Permutation_length (merge_sort_Permutation _ _)).
  by rewrite length_map, length_map_to_list.
Qed.

Lemma table_name_of_inj (i j : nat) :
  table_name_of i = table_name_of j -> i = j.
Proof.
  unfold table_name_of. intros H.
  apply (inj (String.append "table_")) in H.
  by apply (inj pretty) in H.
Qed.

Lemma fold_case_app (a b : string) :
  fold_case (a +:+ b) = fold_case a +:+ fold_case b.
Proof. induction a as [|c a IH]; simpl; [done|]. by rewrite IH. Qed.

Lemma lower_pretty_N_char (x : N) : lower (pretty_N_char x) = pretty_N_char x.
Proof. unfold pretty_N_char. by repeat case_match. Qed.

Lemma fold_case_pretty_N_go (x : N) (s : string) :
  fold_case s = s -> fold_case (pretty_N_go x s) = pretty_N_go x s.
Proof.
  revert s. induction (N.lt_wf_0 x) as [x _ IH]; intros s Hs.
  assert (x = 0 \/ 0 < x)%N as [->|Hpos] by lia.
  - by rewrite pretty_N_go_0.
  - rewrite pretty_N_go_step by done. apply IH.
    + by apply N.div_lt.
    + simpl. by rewrite lower_pretty_N_char, Hs.
Qed.

(** The names the script makes are in lower case already. *)
Lemma fold_case_table_name_of (n : nat) :
  fold_case (table_name_of n) = table_name_of n.
Proof.
  unfold table_name_of. rewrite fold_case_app. f_equal.
  unfold pretty, pretty_nat, pretty, pretty_N.
  case_decide; [done|]. by apply fold_case_pretty_N_go.
Qed.

Lemma same_table_table_name_of (i j : nat) :
  same_table (table_name_of i) (table_name_of j) -> i = j.
Proof.
  unfold same_table. rewrite !fold_case_table_name_of. apply table_name_of_inj.
Qed.

(** A completed replace of a name that no table bears in any spelling adds
    the table and changes nothing else. *)
Lemma replace_of_new_name {Frame : Type}
    (to_sql : string -> if_exists -> bool -> Frame -> gmap string Frame ->
              sql_result Frame) name index df d after :
  replaces_table to_sql ->
  no_table_named name d ->
  to_sql name IfReplace index df d = SqlOk after ->
  after = <[name := df]> d.
Proof.
  intros Hc Hnew Hok. destruct (Hc _ _ _ _ _ Hok) as (Hname & Hgone & Hrest).
  apply map_eq. intros i. destruct (decide (i = name)) as [->|Hne].
  - by rewrite Hname, lookup_insert_eq.
  - rewrite lookup_insert_ne by done.
    destruct (decide (same_table i name)) as [Hs|Hs].
    + by rewrite (Hgone i Hs Hne), (Hnew i Hs).
    + by apply Hrest.
Qed.

(** A completed replace of a name that a table bears, in that spelling
    only, puts the frame in its place. *)
Lemma replace_of_taken_name {Frame : Type}
    (to_sql : string -> if_exists -> bool -> Frame -> gmap string Frame ->
              sql_result Frame) name index df d after :
  replaces_table to_sql ->
  (forall other, same_table other name -> other <> name -> d !! other = None) ->
  to_sql name IfReplace index df d = SqlOk after ->
  after = <[name := df]> d.
Proof.
  intros Hc Hone Hok. destruct (Hc _ _ _ _ _ Hok) as (Hname & Hgone & Hrest).
  apply map_eq. intros i. destruct (decide (i = name)) as [->|Hne].
  - by rewrite Hname, lookup_insert_eq.
  - rewrite lookup_insert_ne by done.
    destruct (decide (same_table i name)) as [Hs|Hs].
    + by rewrite (Hgone i Hs Hne), (Hone i Hs Hne).
    + by apply Hrest.
Qed.

(** ** Events *)

Section Events.

Context {Frame : Type}.
Implicit Types (w : World Frame) (evs : list (event Frame)).

Lemma add_events_app evs1 evs2 w :
  add_events evs2 (add_events evs1 w) = add_events (evs1 ++ evs2) w.
Proof. unfold add_events; simpl. by rewrite <- app_assoc. Qed.

Lemma add_events_db evs w : db (add_events evs w) = db w.
Proof. reflexivity. Qed.

Lemma add_events_session evs w :
  session_messages (add_events evs w) = session_messages w.
Proof. reflexivity. Qed.

Lemma written_tables_app evs1 evs2 :
  written_tables (evs1 ++ evs2) = written_tables evs1 ++ written_tables evs2.
Proof.
  induction evs1 as [|ev evs1 IH]; simpl; [done|].
  destruct ev; simpl; by rewrite ?IH.
Qed.

Lemma failed_writes_app evs1 evs2 :
  failed_writes (evs1 ++ evs2) = failed_writes evs1 ++ failed_writes evs2.
Proof.
  induction evs1 as [|ev evs1 IH]; simpl; [done|].
  destruct ev; simpl; by rewrite ?IH.
Qed.

Lemma llm_calls_app evs1 evs2 :
  llm_calls (evs1 ++ evs2) = llm_calls evs1 ++ llm_calls evs2.
Proof.
  induction evs1 as [|ev evs1 IH]; simpl; [done|].
  destruct ev; simpl; by rewrite ?IH.
Qed.

End Events.

(** ** The two nodes, case by case *)

Section Nodes.

Context {Frame : Type}.
Variable llm : list chat_message -> string.
Variable json_loads : string -> exn + json.
Variable build_frame : json -> exn + Frame.
Variable df_len : Frame -> nat.
Variable pandas_to_sql :
  string -> if_exists -> bool -> Frame -> gmap string Frame -> sql_result Frame.

Implicit Types (w : World Frame) (state : AppState).

Local Abbreviation store := (manage_db build_frame df_len pandas_to_sql).
Local Abbreviation invoke :=
  (compiled_graph_invoke llm json_loads build_frame df_len pandas_to_sql).
Local Abbreviation asked state := (LlmCall (Frame:=Frame) (request_for (messages state))).
Local Abbreviation write name df d := (pandas_to_sql name IfReplace false df d).
Local Abbreviation next_name w := (table_name_of (size (db w) + 1)).

Lemma synthesize_data_decoded state w data :
  json_loads (llm (request_for (messages state))) = inr data ->
  synthesize_data llm json_loads state w =
    Ret {| messages := messages state;
           generated_data := if is_dict data then JArr [data] else data |}
        (add_events [asked state] w).
Proof.
  intros H. unfold synthesize_data, llm_invoke, decode_response, bind, emit, ret.
  fold (request_for (messages state)). by rewrite H.
Qed.

Lemma synthesize_data_undecoded state w msg :
  json_loads (llm (request_for (messages state))) = inl (JSONDecodeError msg) ->
  synthesize_data llm json_loads state w =
    Ret {| messages := messages state; generated_data := JArr [] |}
        (add_events [asked state;
                     StError "AI did not return valid JSON structured data."] w).
Proof.
  intros H. unfold synthesize_data, llm_invoke, decode_response, bind, emit, ret.
  fold (request_for (messages state)). rewrite H. simpl.
  by rewrite add_events_app.
Qed.

(** An exception of the decoder that is not [JSONDecodeError] is not
    caught. *)
Lemma synthesize_data_uncaught state w e :
  json_loads (llm (request_for (messages state))) = inl e ->
  is_json_decode_error e = false ->
  synthesize_data llm json_loads state w = Raise e (add_events [asked state] w).
Proof.
  intros H He. unfold synthesize_data, llm_invoke, decode_response, bind, emit, ret, raise.
  fold (request_for (messages state)). by rewrite H, He.
Qed.

Lemma json_decode_error_inv (e : exn) :
  is_json_decode_error e = true -> exists msg, e = JSONDecodeError msg.
Proof.
  destruct e as [cls msg]. simpl. intros H. apply String.eqb_eq in H as ->.
  by exists msg.
Qed.

Lemma manage_db_falsy state w :
  truthy (generated_data state) = false ->
  store state w = Ret state (add_events [StWarning "No data to store in DB"] w).
Proof. intros H. unfold manage_db. by rewrite H. Qed.

Lemma manage_db_scalar state w :
  truthy (generated_data state) = true ->
  is_scalar (generated_data state) = true ->
  store state w = Raise (ValueError "DataFrame constructor not properly called!") w.
Proof.
  intros Ht Hs. unfold manage_db, pd_DataFrame, bind, raise.
  by rewrite Ht, Hs.
Qed.

Lemma manage_db_refused state w e :
  truthy (generated_data state) = true ->
  is_scalar (generated_data state) = false ->
  build_frame (generated_data state) = inl e ->
  store state w = Raise e w.
Proof.
  intros Ht Hs Hb. unfold manage_db, pd_DataFrame, bind, raise.
  by rewrite Ht, Hs, Hb.
Qed.

Lemma manage_db_stores state w df after :
  truthy (generated_data state) = true ->
  is_scalar (generated_data state) = false ->
  build_frame (generated_data state) = inr df ->
  write (next_name w) df (db w) = SqlOk after ->
  store state w = Ret state (stored df_len df after w).
Proof.
  intros Ht Hs Hb Hok.
  unfold manage_db, pd_DataFrame, get_table_names, to_sql, bind, ret, emit.
  rewrite Ht, Hs, Hb. simpl. rewrite table_names_length, Hok.
  unfold stored, store_events, add_events. simpl.
  by rewrite <- app_assoc.
Qed.

Lemma manage_db_write_fails state w df e after :
  truthy (generated_data state) = true ->
  is_scalar (generated_data state) = false ->
  build_frame (generated_data state) = inr df ->
  write (next_name w) df (db w) = SqlError e after ->
  store state w = Raise e (write_failed df e after w).
Proof.
  intros Ht Hs Hb Herr.
  unfold manage_db, pd_DataFrame, get_table_names, to_sql, bind, ret, emit.
  rewrite Ht, Hs, Hb. simpl. by rewrite table_names_length, Herr.
Qed.

(** [compiled_graph.invoke] is the storage node run on what the generation
    node returned. *)
Lemma invoke_after_synthesize inputs w state w1 :
  synthesize_data llm json_loads inputs w = Ret state w1 ->
  invoke inputs w = store state w1.
Proof. intros H. unfold compiled_graph_invoke, bind. by rewrite H. Qed.

Lemma invoke_synthesize_raises inputs w e w1 :
  synthesize_data llm json_loads inputs w = Raise e w1 ->
  invoke inputs w = Raise e w1.
Proof. intros H. unfold compiled_graph_invoke, bind. by rewrite H. Qed.

Lemma written_tables_stored df after w :
  written_tables (trace (stored df_len df after w)) =
  written_tables (trace w) ++ [next_name w].
Proof. unfold stored; simpl. by rewrite written_tables_app. Qed.

Lemma written_tables_add_warning text w :
  written_tables (trace (add_events [StWarning text] w)) = written_tables (trace w).
Proof. simpl. rewrite written_tables_app. simpl. by rewrite app_nil_r. Qed.

Lemma written_tables_add_asked state w :
  written_tables (trace (add_events [asked state] w)) = written_tables (trace w).
Proof. simpl. rewrite written_tables_app. simpl. by rewrite app_nil_r. Qed.

Lemma array_verbatim_aux state w items :
  json_loads (llm (request_for (messages state))) = inr (JArr items) ->
  synthesize_data llm json_loads state w =
    Ret {| messages := messages state; generated_data := JArr items |}
        (add_events [asked state] w)
  /\ (items = [] ->
      invoke state w =
        Ret {| messages := messages state; generated_data := JArr items |}
            (add_events [StWarning "No data to store in DB"]
                        (add_events [asked state] w))).
Proof.
  intros Hdec.
  pose proof (synthesize_data_decoded state w _ Hdec) as Hsyn. simpl in Hsyn.
  split; [done|]. intros ->.
  rewrite (invoke_after_synthesize _ _ _ _ Hsyn). by apply manage_db_falsy.
Qed.


(** C3: when the reply is not valid JSON, the generation node shows the
    error and returns the empty record list, the storage node is still run,
    shows its warning and writes nothing: the run returns, the database is
    the one it started from and the trace gained the model call, the error
    and the warning. *)
Theorem invalid_json_warns_and_writes_nothing state w msg :
  json_loads (llm (request_for (messages state))) = inl (JSONDecodeError msg) ->
  let empty := {| messages := messages state; generated_data := JArr [] |} in
  let w1 := add_events [asked state;
                        StError "AI did not return valid JSON structured data."] w in
  synthesize_data llm json_loads state w = Ret empty w1
  /\ invoke state w = store empty w1
  /\ invoke state w = Ret empty (add_events [StWarning "No data to store in DB"] w1)
  /\ db (world_of (invoke state w)) = db w
  /\ written_tables (trace (world_of (invoke state w))) = written_tables (trace w).
Proof.
  intros Hdec empty w1.
  pose proof (synthesize_data_undecoded state w msg Hdec) as Hsyn.
  pose proof (invoke_after_synthesize _ _ _ _ Hsyn) as Hinv.
  assert (Hrun : invoke state w =
                 Ret empty (add_events [StWarning "No data to store in DB"] w1)).
  { rewrite Hinv. by apply manage_db_falsy. }
  repeat split; try done.
  - by rewrite Hrun.
  - rewrite Hrun. unfold world_of, w1.
    rewrite written_tables_add_warning. simpl.
    rewrite written_tables_app. simpl. by rewrite app_nil_r.
Qed.


Lemma pd_DataFrame_ret data w df w' :
  pd_DataFrame build_frame data w = Ret df w' <->
  is_scalar data = false /\ build_frame data = inr df /\ w' = w.
Proof.
  unfold pd_DataFrame, raise, ret.
  destruct (is_scalar data); [split; [done | by intros [? _]] |].
  destruct (build_frame data) as [e|df0]; split.
  - done.
  - by intros (_ & ? & _).
  - intros [= -> ->]. done.
  - intros (_ & [= ->] & ->). done.
Qed.

Lemma pd_DataFrame_world data w :
  world_of (pd_DataFrame build_frame data w) = w.
Proof.
  unfold pd_DataFrame, raise, ret.
  destruct (is_scalar data); [done|]. by destruct (build_frame data).
Qed.

(** The four ways [manage_db] can end. *)
Lemma manage_db_cases state w :
  (truthy (generated_data state) = false /\
   store state w = Ret state (add_events [StWarning "No data to store in DB"] w))
  \/ (truthy (generated_data state) = true /\
      exists e, pd_DataFrame build_frame (generated_data state) w = Raise e w /\
                store state w = Raise e w)
  \/ (truthy (generated_data state) = true /\
      exists df after,
        pd_DataFrame build_frame (generated_data state) w = Ret df w /\
        write (next_name w) df (db w) = SqlOk after /\
        store state w = Ret state (stored df_len df after w))
  \/ (truthy (generated_data state) = true /\
      exists df e after,
        pd_DataFrame build_frame (generated_data state) w = Ret df w /\
        write (next_name w) df (db w) = SqlError e after /\
        store state w = Raise e (write_failed df e after w)).
Proof.
  destruct (truthy (generated_data state)) eqn:Ht.
  - right. destruct (is_scalar (generated_data state)) eqn:Hs.
    + left. split; [done|]. eexists. split; [|by apply manage_db_scalar].
      unfold pd_DataFrame. by rewrite Hs.
    + destruct (build_frame (generated_data state)) as [e|df] eqn:Hb.
      * left. split; [done|]. exists e. split; [|by apply manage_db_refused].
        unfold pd_DataFrame. by rewrite Hs, Hb.
      * right. assert (Hdf : pd_DataFrame build_frame (generated_data state) w = Ret df w).
        { unfold pd_DataFrame. by rewrite Hs, Hb. }
        destruct (write (next_name w) df (db w)) as [after|e after] eqn:Hw.
        -- left. split; [done|]. exists df, after.
           split; [done|]. split; [done|]. by apply manage_db_stores.
        -- right. split; [done|]. exists df, e, after.
           split; [done|]. split; [done|]. by apply manage_db_write_fails.
  - left. split; [done|]. by apply manage_db_falsy.
Qed.


Lemma List_last_cons (d a : string) (l : list string) :
  List.last (a :: l) d = List.last l a.
Proof.
  revert a d. induction l as [|b l IH]; intros a d; [reflexivity|].
  change (List.last (a :: b :: l) d) with (List.last (b :: l) d).
  by rewrite !IH.
Qed.

Lemma last_cons_last (m : string) (rest : list string) :
  last (m :: rest) = Some (List.last rest m).
Proof.
  revert m. induction rest as [|m' rest IH]; intros m.
  - reflexivity.
  - change (last (m :: m' :: rest)) with (last (m' :: rest)).
    by rewrite IH, List_last_cons.
Qed.

Lemma user_request_last (history : list string) :
  user_request history = from_option id default_request (last history).
Proof. destruct history as [|m rest]; [done|]. by rewrite last_cons_last. Qed.

(** The generation node first asks the model, whatever comes next. *)
Lemma synthesize_data_asks state w :
  exists rest,
    trace (world_of (synthesize_data llm json_loads state w)) =
    trace w ++ asked state :: rest.
Proof.
  destruct (json_loads (llm (request_for (messages state)))) as [e|data] eqn:Hdec.
  - destruct (is_json_decode_error e) eqn:He.
    + apply json_decode_error_inv in He as [msg ->].
      rewrite (synthesize_data_undecoded _ _ _ Hdec). by eexists.
    + rewrite (synthesize_data_uncaught _ _ _ Hdec He). by exists [].
  - rewrite (synthesize_data_decoded _ _ _ Hdec). by exists [].
Qed.

(** C7: the first thing the generation node does is to call the model with
    the system prompt and, as the user message, the last element of the
    history, or the default request when the history is empty; the message
    is a function of the history alone. *)
Theorem request_is_last_of_history state w :
  exists rest,
    trace (world_of (synthesize_data llm json_loads state w)) =
    trace w ++
      LlmCall [SystemMessage system_prompt;
               HumanMessage (from_option id default_request (last (messages state)))]
      :: rest.
Proof.
  rewrite <- user_request_last. fold (request_for (messages state)).
  apply synthesize_data_asks.
Qed.

(** C8: the generation node, when it returns, returns a state with the
    [messages] it was given, in which only [generated_data] is new, and it
    returns whenever the decoder returns a value or raises
    [JSONDecodeError]; the storage node, when it returns, returns the
    state it was given, and it returns both when it writes nothing (falsy
    data) and when it writes (the frame was built and the write
    completed). *)
Theorem nodes_preserve_state state w :
  (forall output w',
      synthesize_data llm json_loads state w = Ret output w' ->
      messages output = messages state)
  /\ (forall data,
        json_loads (llm (request_for (messages state))) = inr data ->
        exists w',
          synthesize_data llm json_loads state w =
            Ret {| messages := messages state; generated_data := records_of data |} w')
  /\ (forall msg,
        json_loads (llm (request_for (messages state))) = inl (JSONDecodeError msg) ->
        exists w',
          synthesize_data llm json_loads state w =
            Ret {| messages := messages state; generated_data := JArr [] |} w')
  /\ (forall state' w', store state w = Ret state' w' -> state' = state)
  /\ (truthy (generated_data state) = false ->
      exists w', store state w = Ret state w'
                 /\ written_tables (trace w') = written_tables (trace w))
  /\ (forall df after,
        truthy (generated_data state) = true ->
        pd_DataFrame build_frame (generated_data state) w = Ret df w ->
        write (next_name w) df (db w) = SqlOk after ->
        exists w', store state w = Ret state w'
                   /\ db w' = after
                   /\ written_tables (trace w') =
                      written_tables (trace w) ++ [next_name w]).
Proof.
  split; [|split; [|split; [|split; [|split]]]].
  - intros output w' Hret.
    destruct (json_loads (llm (request_for (messages state)))) as [e|data] eqn:Hdec.
    + destruct (is_json_decode_error e) eqn:He.
      * apply json_decode_error_inv in He as [msg ->].
        rewrite (synthesize_data_undecoded _ _ _ Hdec) in Hret. by injection Hret as <- _.
      * by rewrite (synthesize_data_uncaught _ _ _ Hdec He) in Hret.
    + rewrite (synthesize_data_decoded _ _ _ Hdec) in Hret. by injection Hret as <- _.
  - intros data Hdec. rewrite (synthesize_data_decoded _ _ _ Hdec). by eexists.
  - intros msg Hdec. rewrite (synthesize_data_undecoded _ _ _ Hdec). by eexists.
  - intros state' w' Hret.
    destruct (manage_db_cases state w)
      as [[_ H]|[[_ (e & _ & H)]|[[_ (df & after & _ & _ & H)]
                                  |[_ (df & e & after & _ & _ & H)]]]];
      rewrite H in Hret; congruence.
  - intros Ht. eexists. split; [by apply manage_db_falsy|].
    apply written_tables_add_warning.
  - intros df after Ht Hdf Hok. apply pd_DataFrame_ret in Hdf as (Hs & Hb & _).
    eexists. split; [by apply manage_db_stores|]. split; [done|].
    apply written_tables_stored.
Qed.

(** C9: when the reply decodes to a value that is neither an object nor an
    array (as the texts 5 or a quoted string do), the generation node
    returns the value itself as [generated_data] and shows no error; when
    the value is truthy, the frame constructor of the storage node raises
    [ValueError], which nothing catches: the run ends with it, without
    warning and without a write. *)
Theorem scalar_reply_faults state w v :
  json_loads (llm (request_for (messages state))) = inr v ->
  is_dict v = false ->
  is_list v = false ->
  let passed := {| messages := messages state; generated_data := v |} in
  let w1 := add_events [asked state] w in
  synthesize_data llm json_loads state w = Ret passed w1
  /\ (truthy v = true ->
      store passed w1 =
        Raise (ValueError "DataFrame constructor not properly called!") w1
      /\ invoke state w =
        Raise (ValueError "DataFrame constructor not properly called!") w1).
Proof.
  intros Hdec Hd Hl passed w1.
  assert (Hsyn : synthesize_data llm json_loads state w = Ret passed w1).
  { rewrite (synthesize_data_decoded _ _ _ Hdec). by rewrite Hd. }
  split; [done|]. intros Ht.
  assert (Hs : is_scalar v = true) by (by destruct v).
  rewrite (invoke_after_synthesize _ _ _ _ Hsyn).
  split; by apply manage_db_scalar.
Qed.

(** C10: when the reply is the text of the empty JSON array, the
    generation node shows no error and returns the empty record list, and
    the storage node shows the no-data warning and writes nothing. *)
Theorem empty_array_reply_warns state w :
  llm (request_for (messages state)) = "[]" ->
  json_loads "[]" = inr (JArr []) ->
  let empty := {| messages := messages state; generated_data := JArr [] |} in
  let w1 := add_events [asked state] w in
  synthesize_data llm json_loads state w = Ret empty w1
  /\ invoke state w =
       Ret empty (add_events [StWarning "No data to store in DB"] w1)
  /\ db (world_of (invoke state w)) = db w
  /\ written_tables (trace (world_of (invoke state w))) = written_tables (trace w).
Proof.
  intros Hreply Hloads empty w1.
  assert (Hdec : json_loads (llm (request_for (messages state))) = inr (JArr [])).
  { by rewrite Hreply. }
  destruct (array_verbatim_aux state w [] Hdec) as (Hsyn & Hrun).
  specialize (Hrun eq_refl).
  split; [exact Hsyn|]. split; [exact Hrun|]. rewrite Hrun. split.
  - reflexivity.
  - unfold world_of.
    by rewrite written_tables_add_warning, written_tables_add_asked.
Qed.

End Nodes.

(** ** What a piece of the script leaves alone *)

Section Frames.

Context {Frame : Type}.
Variable json_loads : string -> exn + json.
Variable build_frame : json -> exn + Frame.
Variable df_len : Frame -> nat.
Variable pandas_to_sql :
  string -> if_exists -> bool -> Frame -> gmap string Frame -> sql_result Frame.

Lemma keeps_session_ret {A} (a : A) : keeps_session (ret (Frame:=Frame) a).
Proof. by intros w. Qed.

Lemma keeps_session_raise {A} (e : exn) : keeps_session (raise (Frame:=Frame) (A:=A) e).
Proof. by intros w. Qed.

Lemma keeps_session_emit (ev : event Frame) : keeps_session (emit ev).
Proof. by intros w. Qed.

Lemma keeps_session_bind {A B} (m : M Frame A) (k : A -> M Frame B) :
  keeps_session m -> (forall a, keeps_session (k a)) -> keeps_session (bind m k).
Proof.
  intros Hm Hk w. unfold bind. specialize (Hm w).
  destruct (m w) as [a w'|e w']; simpl in *; [|done]. by rewrite Hk.
Qed.

Lemma keeps_session_pd_DataFrame data :
  keeps_session (pd_DataFrame build_frame data).
Proof. intros w. by rewrite pd_DataFrame_world. Qed.

Lemma keeps_session_get_table_names :
  keeps_session (get_table_names (Frame:=Frame)).
Proof. by intros w. Qed.

Lemma keeps_session_to_sql name (df : Frame) :
  keeps_session (to_sql pandas_to_sql name df).
Proof. intros w. unfold to_sql. by destruct (pandas_to_sql _ _ _ _ _). Qed.

Create HintDb keeps discriminated.
#[local] Hint Resolve keeps_session_ret keeps_session_raise keeps_session_emit
  keeps_session_pd_DataFrame keeps_session_get_table_names
  keeps_session_to_sql : keeps.

Ltac keeps_step :=
  repeat first
    [ apply keeps_session_bind; [|intros ?]
    | solve [auto with keeps] ].

Lemma keeps_session_synthesize_data llm state :
  keeps_session (synthesize_data (Frame:=Frame) llm json_loads state).
Proof.
  unfold synthesize_data, llm_invoke, decode_response. keeps_step.
  destruct (json_loads _) as [e|data]; [destruct (is_json_decode_error e)|];
    keeps_step.
Qed.

Lemma keeps_session_manage_db state :
  keeps_session (manage_db build_frame df_len pandas_to_sql state).
Proof.
  unfold manage_db. destruct (negb _); keeps_step.
Qed.

Lemma keeps_session_invoke llm inputs :
  keeps_session (compiled_graph_invoke llm json_loads build_frame df_len pandas_to_sql inputs).
Proof.
  unfold compiled_graph_invoke. apply keeps_session_bind.
  - apply keeps_session_synthesize_data.
  - intros state. apply keeps_session_manage_db.
Qed.

Lemma keeps_session_session_get : keeps_session (session_get (Frame:=Frame)).
Proof.
  intros w. unfold session_get.
  destruct (session_messages w) eqn:Hs; simpl; by rewrite Hs.
Qed.

Lemma keeps_session_show_generated output :
  keeps_session (show_generated build_frame output).
Proof. unfold show_generated. destruct (truthy _); keeps_step. Qed.

Lemma keeps_session_show_tables : keeps_session (show_tables (Frame:=Frame)).
Proof. unfold show_tables. keeps_step. Qed.

(** A continuation that keeps the session does not change what the first
    part made of it. *)
Lemma session_after_bind {A B} (m : M Frame A) (k : A -> M Frame B) w :
  (forall a, keeps_session (k a)) ->
  session_messages (world_of (bind m k w)) = session_messages (world_of (m w)).
Proof.
  intros Hk. unfold bind. destruct (m w) as [a w'|e w']; simpl; [|done].
  apply Hk.
Qed.

Lemma on_button_session llm prompt (w : World Frame) history :
  session_messages w = Some history ->
  session_messages (world_of (on_button llm json_loads build_frame df_len pandas_to_sql prompt w)) =
  Some (history ++ (if negb (String.eqb prompt EmptyString) then [prompt] else [])).
Proof.
  intros Hsess. unfold on_button.
  destruct (negb (String.eqb prompt EmptyString)).
  - unfold bind at 1. unfold session_append at 1. rewrite Hsess.
    rewrite session_after_bind.
    + apply keeps_session_session_get.
    + intros h. apply keeps_session_bind; [apply keeps_session_invoke|].
      intros output. apply keeps_session_show_generated.
  - simpl. by rewrite app_nil_r.
Qed.

(** One rerun of the script appends the text input to the history when the
    button was pressed and the input is not empty, and leaves the history
    alone otherwise. *)
Lemma script_history llm prompt clicked (w : World Frame) :
  session_messages
    (world_of (script llm json_loads build_frame df_len pandas_to_sql prompt clicked w)) =
  Some (history_of w ++
        (if clicked && negb (String.eqb prompt EmptyString) then [prompt] else [])).
Proof.
  unfold script. unfold bind at 1. unfold emit at 1.
  set (w0 := add_events _ w).
  unfold bind at 1.
  assert (Hinit : exists w1, session_init w0 = Ret tt w1 /\
                             session_messages w1 = Some (history_of w)).
  { unfold session_init, history_of. subst w0. simpl.
    destruct (session_messages w) eqn:Hs; eexists; split; done. }
  destruct Hinit as (w1 & -> & Hw1).
  rewrite session_after_bind by (intros; apply keeps_session_show_tables).
  destruct clicked; simpl.
  - by apply on_button_session.
  - by rewrite app_nil_r.
Qed.

End Frames.

(** ** Sequences of runs *)

Section Runs.

Context {Frame : Type}.
Variable json_loads : string -> exn + json.
Variable build_frame : json -> exn + Frame.
Variable df_len : Frame -> nat.
Variable pandas_to_sql :
  string -> if_exists -> bool -> Frame -> gmap string Frame -> sql_result Frame.

Local Abbreviation invoke llm :=
  (compiled_graph_invoke llm json_loads build_frame df_len pandas_to_sql).
Local Abbreviation invoke_all := (invoke_all json_loads build_frame df_len pandas_to_sql).
Local Abbreviation session := (session json_loads build_frame df_len pandas_to_sql).
Local Abbreviation write name df d := (pandas_to_sql name IfReplace false df d).
Local Abbreviation next_name w := (table_name_of (size (db w) + 1)).

(** One run of the graph: one request to the model, and at most one call
    of [to_sql], under the name computed from the number of tables; the
    database is left alone when there is no call, and is what the call
    left otherwise. *)
Lemma invoke_effect llm inputs (w : World Frame) :
  exists evs,
    trace (world_of (invoke llm inputs w)) = trace w ++ evs
    /\ session_messages (world_of (invoke llm inputs w)) = session_messages w
    /\ llm_calls evs = [request_for (messages inputs)]
    /\ ((db (world_of (invoke llm inputs w)) = db w
         /\ written_tables evs = [] /\ failed_writes evs = [])
        \/ (exists df after,
              write (next_name w) df (db w) = SqlOk after
              /\ db (world_of (invoke llm inputs w)) = after
              /\ written_tables evs = [next_name w] /\ failed_writes evs = [])
        \/ (exists df e after,
              write (next_name w) df (db w) = SqlError e after
              /\ db (world_of (invoke llm inputs w)) = after
              /\ written_tables evs = [] /\ failed_writes evs = [next_name w]
              /\ invoke llm inputs w = Raise e (world_of (invoke llm inputs w)))).
Proof.
  assert (Hsyn : exists evs1,
             llm_calls evs1 = [request_for (messages inputs)]
             /\ written_tables evs1 = [] /\ failed_writes evs1 = []
             /\ ((exists state, synthesize_data llm json_loads inputs w
                                = Ret state (add_events evs1 w))
                 \/ (exists e, synthesize_data llm json_loads inputs w
                               = Raise e (add_events evs1 w)))).
  { destruct (json_loads (llm (request_for (messages inputs)))) as [e|data] eqn:Hdec.
    - destruct (is_json_decode_error e) eqn:He.
      + apply json_decode_error_inv in He as [msg ->].
        rewrite (synthesize_data_undecoded _ _ _ _ _ Hdec).
        eexists. repeat split; [..|left; by eexists]; done.
      + rewrite (synthesize_data_uncaught _ _ _ _ _ Hdec He).
        eexists. repeat split; [..|right; by eexists]; done.
    - rewrite (synthesize_data_decoded _ _ _ _ _ Hdec).
      eexists. repeat split; [..|left; by eexists]; done. }
  destruct Hsyn as (evs1 & Hcalls & Hwr & Hfl & [[state Hsyn]|[e Hsyn]]).
  - rewrite (invoke_after_synthesize _ _ build_frame df_len pandas_to_sql _ _ _ _ Hsyn).
    destruct (manage_db_cases build_frame df_len pandas_to_sql state (add_events evs1 w))
      as [[_ H]|[[_ (e & _ & H)]|[[_ (df & after & _ & Hok & H)]
                                  |[_ (df & e & after & _ & Herr & H)]]]];
      rewrite H; simpl.
    + exists (evs1 ++ [StWarning "No data to store in DB"]).
      rewrite app_assoc, llm_calls_app, written_tables_app, failed_writes_app,
        Hcalls, Hwr, Hfl.
      repeat split; try done. by left.
    + exists evs1. repeat split; try done. by left.
    + exists (evs1 ++ store_events df_len (db w) df).
      rewrite app_assoc, llm_calls_app, written_tables_app, failed_writes_app,
        Hcalls, Hwr, Hfl.
      repeat split; try done. right. left. by exists df, after.
    + exists (evs1 ++ [ToSqlFailed (next_name w) df e]).
      rewrite app_assoc, llm_calls_app, written_tables_app, failed_writes_app,
        Hcalls, Hwr, Hfl.
      repeat split; try done. right. right. by exists df, e, after.
  - rewrite (invoke_synthesize_raises _ _ build_frame df_len pandas_to_sql _ _ _ _ Hsyn).
    exists evs1. repeat split; try done. by left.
Qed.

Lemma invoke_all_cons call calls (w : World Frame) :
  invoke_all (call :: calls) w =
  invoke_all calls (world_of (invoke (fst call) (snd call) w)).
Proof. reflexivity. Qed.

(** A sequence of runs only adds to the trace. *)
Lemma invoke_all_trace calls (w : World Frame) :
  exists evs, trace (invoke_all calls w) = trace w ++ evs.
Proof.
  revert w. induction calls as [|call calls IH]; intros w.
  - exists []. simpl. by rewrite app_nil_r.
  - rewrite invoke_all_cons.
    destruct (invoke_effect (fst call) (snd call) w) as (evs1 & Htr & _).
    destruct (IH (world_of (invoke (fst call) (snd call) w))) as (evs2 & ->).
    exists (evs1 ++ evs2). by rewrite Htr, app_assoc.
Qed.

(** When no write of a sequence raises, no write of its first run raises
    and no write of the runs after it does. *)
Lemma no_failed_write_cons call calls (w : World Frame) :
  failed_writes (trace (invoke_all (call :: calls) w)) = failed_writes (trace w) ->
  failed_writes (trace (world_of (invoke (fst call) (snd call) w)))
    = failed_writes (trace w)
  /\ failed_writes (trace (invoke_all calls (world_of (invoke (fst call) (snd call) w))))
     = failed_writes (trace (world_of (invoke (fst call) (snd call) w))).
Proof.
  rewrite invoke_all_cons.
  destruct (invoke_effect (fst call) (snd call) w) as (evs1 & Htr & _).
  destruct (invoke_all_trace calls (world_of (invoke (fst call) (snd call) w)))
    as (evs2 & Htr2).
  rewrite Htr2, Htr, !failed_writes_app, <- app_assoc.
  intros Heq.
  rewrite <- (app_nil_r (failed_writes (trace w))) in Heq at 2.
  apply app_inv_head in Heq. apply app_eq_nil in Heq as [-> ->].
  by rewrite !app_nil_r.
Qed.

Lemma invoke_all_writes calls (w : World Frame) :
  replaces_table pandas_to_sql ->
  (forall j, size (db w) < j -> no_table_named (table_name_of j) (db w)) ->
  failed_writes (trace (invoke_all calls w)) = failed_writes (trace w) ->
  exists m,
    written_tables (trace (invoke_all calls w)) =
      written_tables (trace w) ++ map table_name_of (seq (S (size (db w))) m)
    /\ size (db (invoke_all calls w)) = size (db w) + m.
Proof.
  intros Hc. revert w. induction calls as [|call calls IH]; intros w Hfree Hnofail.
  - exists 0. simpl. by rewrite app_nil_r, Nat.add_0_r.
  - apply no_failed_write_cons in Hnofail as [Hfirst Hrest].
    rewrite invoke_all_cons.
    destruct (invoke_effect (fst call) (snd call) w)
      as (evs & Htr & _ & _ & Hdb).
    set (w1 := world_of (invoke (fst call) (snd call) w)) in *.
    destruct Hdb as [(Hdb & Hwr & _)|[(df & after & Hok & Hdb & Hwr & _)
                                     |(df & e & after & _ & _ & _ & Hfl & _)]].
    + destruct (IH w1) as (m & Hm & Hsz); [by rewrite Hdb|done|].
      exists m. by rewrite Hm, Hsz, Hdb, Htr, written_tables_app, Hwr, app_nil_r.
    + assert (Hafter : after = <[next_name w := df]> (db w)).
      { apply (replace_of_new_name pandas_to_sql _ false); [done| |done].
        apply Hfree. lia. }
      assert (Hsize : size (db w1) = S (size (db w))).
      { rewrite Hdb, Hafter. apply map_size_insert_None.
        apply (Hfree (size (db w) + 1)); [lia|done]. }
      destruct (IH w1) as (m & Hm & Hsz); [|done|].
      { intros j Hj other Hsame. rewrite Hsize in Hj. rewrite Hdb, Hafter.
        rewrite lookup_insert_ne.
        - apply (Hfree j); [lia|done].
        - intros <-. apply same_table_table_name_of in Hsame. lia. }
      exists (S m). rewrite Hm, Hsz, Hsize, Htr, written_tables_app, Hwr.
      split; [|lia]. rewrite <- app_assoc. simpl. by rewrite Nat.add_1_r.
    + rewrite Htr, failed_writes_app, Hfl in Hfirst.
      rewrite <- (app_nil_r (failed_writes (trace w))) in Hfirst at 2.
      by apply app_inv_head in Hfirst.
Qed.

(** C2, amended: from a database of [k] tables none of which is named
    [table_j] with [j] above [k] in any spelling, and along a sequence of
    runs of the graph, one after the other, in which no write raises, the
    tables written are [table_(k+1)], [table_(k+2)], ... in this order:
    the n-th write creates [table_(k+n)], so the ordinals grow strictly,
    and every write adds a table. *)
Theorem sequential_writes_are_numbered calls (w : World Frame) :
  replaces_table pandas_to_sql ->
  (forall j, size (db w) < j -> no_table_named (table_name_of j) (db w)) ->
  failed_writes (trace (invoke_all calls w)) = failed_writes (trace w) ->
  exists m,
    written_tables (trace (invoke_all calls w)) =
      written_tables (trace w) ++ map table_name_of (seq (S (size (db w))) m)
    /\ (forall n, n < m ->
          written_tables (trace (invoke_all calls w))
            !! (length (written_tables (trace w)) + n)
          = Some (table_name_of (size (db w) + S n)))
    /\ size (db (invoke_all calls w)) = size (db w) + m.
Proof.
  intros Hc Hfree Hnofail.
  destruct (invoke_all_writes calls w Hc Hfree Hnofail) as (m & Hm & Hsz).
  exists m. split; [exact Hm|]. split; [|exact Hsz].
  intros n Hn. rewrite Hm, lookup_app_r by lia.
  replace (length (written_tables (trace w)) + n - length (written_tables (trace w)))
    with n by lia.
  rewrite list_lookup_fmap, lookup_seq_lt by done. simpl.
  f_equal. f_equal. lia.
Qed.

Lemma session_cons i runs (w : World Frame) :
  session (i :: runs) w =
  session runs (world_of (script (reply i) json_loads build_frame df_len
                                 pandas_to_sql (typed i) (pressed i) w)).
Proof. reflexivity. Qed.

(** C6, amended: over a session, the history is the one it started from
    followed by the text inputs of the reruns in which the button was
    pressed on a non-empty input, in order: such a rerun appends exactly
    its text input, any other rerun leaves the history as it is, and
    nothing is ever removed. *)
Theorem history_grows_by_submitted_inputs runs (w : World Frame) :
  history_of (session runs w) =
  history_of w ++ map typed (filter (fun i => submits i = true) runs).
Proof.
  revert w. induction runs as [|i runs IH]; intros w.
  - simpl. by rewrite app_nil_r.
  - rewrite session_cons, IH.
    unfold history_of at 1. rewrite script_history.
    rewrite filter_cons.
    fold (submits i). destruct (submits i) eqn:Hgo.
    + rewrite decide_True by done. simpl. by rewrite <- app_assoc.
    + rewrite decide_False by done. by rewrite app_nil_r.
Qed.

End Runs.

(** ** The claims on concrete runs *)

Section Concrete.

Import JsonText Demo.

Local Abbreviation run_graph llm :=
  (compiled_graph_invoke llm decode rows_frame row_count sqlite_store).
Local Abbreviation asked_first :=
  (LlmCall (Frame:=Rows) (request_for ["Generate 5 orders for Delhi"])).

Lemma drop_table_lookup_same name (d : gmap string Rows) other :
  same_table other name -> drop_table name d !! other = None.
Proof.
  intros Hs. unfold drop_table. apply map_lookup_filter_None. right.
  intros x _ Hf. by apply Hf.
Qed.

Lemma drop_table_lookup_other name (d : gmap string Rows) other :
  ~ same_table other name -> drop_table name d !! other = d !! other.
Proof.
  intros Hs. unfold drop_table. destruct (d !! other) as [x|] eqn:Hd.
  - by apply map_lookup_filter_Some_2.
  - apply map_lookup_filter_None. by left.
Qed.

(** The store keeps to what a completed replace has to do. *)
Lemma sqlite_store_replaces : replaces_table sqlite_store.
Proof.
  intros name index df d after. unfold sqlite_store, create_and_fill.
  destruct (spelled_otherwise name d); [done|].
  destruct (no_columns df); [done|]. destruct (holds_unbindable df); [done|].
  intros [= <-]. split; [apply lookup_insert_eq|]. split.
  - intros other Hs Hne. rewrite lookup_insert_ne by done.
    by apply drop_table_lookup_same.
  - intros other Hs. rewrite lookup_insert_ne.
    + by apply drop_table_lookup_other.
    + intros <-. by apply Hs.
Qed.



(** A non-empty array whose write raises: the one order holds a list,
    which SQLite cannot bind; the run ends with the exception, [table_1]
    is left created and empty, and no write is counted as completed. *)
Lemma failed_write_leaves_empty_table :
  decode (answers nested_order_text (request_for (messages first_request)))
    = inr (JArr nested_order)
  /\ run_graph (answers nested_order_text) first_request fresh =
       Raise (PyExn "InterfaceError" "Error binding parameter")
             (write_failed nested_order
                (PyExn "InterfaceError" "Error binding parameter")
                {[ "table_1" := [] ]}
                (add_events [asked_first] fresh))
  /\ written_tables (trace (world_of (run_graph (answers nested_order_text)
                                                first_request fresh))) = [].
Proof. repeat split; vm_compute; reflexivity. Qed.

(** C3 on a run: the model answers with prose; the database keeps its one
    table. *)
Lemma invalid_json_warns_and_writes_nothing_witness :
  decode (answers "Sorry, I cannot do that." (request_for (messages first_request)))
    = inl (JSONDecodeError "Expecting value")
  /\ db (world_of (run_graph (answers "Sorry, I cannot do that.") first_request
                             only_table_2)) = db only_table_2.
Proof.
  split; [reflexivity|].
  apply (invalid_json_warns_and_writes_nothing (answers "Sorry, I cannot do that.")
           decode rows_frame row_count sqlite_store first_request only_table_2
           "Expecting value" eq_refl).
Defined.




(** C8 on a run: the storage node writes the two orders and returns the
    state it was given. *)
Lemma nodes_preserve_state_witness :
  sqlite_store (table_name_of (size (db fresh) + 1)) IfReplace false
               two_orders (db fresh)
    = SqlOk {[ "table_1" := two_orders ]}
  /\ exists w',
       manage_db rows_frame row_count sqlite_store ready_to_store fresh
         = Ret ready_to_store w'
       /\ db w' = {[ "table_1" := two_orders ]}
       /\ written_tables (trace w') =
          written_tables (trace fresh) ++ [table_name_of (size (db fresh) + 1)].
Proof.
  assert (Hok : sqlite_store (table_name_of (size (db fresh) + 1)) IfReplace false
                             two_orders (db fresh)
                = SqlOk {[ "table_1" := two_orders ]}).
  { vm_compute. reflexivity. }
  split; [exact Hok|].
  destruct (nodes_preserve_state (answers two_orders_text) decode rows_frame
              row_count sqlite_store ready_to_store fresh)
    as (_ & _ & _ & _ & _ & Hwrite).
  apply (Hwrite two_orders); [reflexivity | reflexivity | exact Hok].
Defined.

(** C9 on a run: the model answers with the text 5; the number is passed
    on without an error shown, and the frame constructor raises. *)
Lemma scalar_reply_faults_witness :
  decode (answers "5" (request_for (messages first_request))) = inr (JInt 5)
  /\ is_dict (JInt 5) = false
  /\ is_list (JInt 5) = false
  /\ truthy (JInt 5) = true
  /\ synthesize_data (answers "5") decode first_request fresh =
       Ret {| messages := messages first_request; generated_data := JInt 5 |}
           (add_events [asked_first] fresh)
  /\ run_graph (answers "5") first_request fresh =
       Raise (ValueError "DataFrame constructor not properly called!")
             (add_events [asked_first] fresh).
Proof.
  split; [reflexivity|]. split; [reflexivity|]. split; [reflexivity|].
  split; [reflexivity|].
  destruct (scalar_reply_faults (answers "5") decode rows_frame row_count sqlite_store
              first_request fresh (JInt 5) eq_refl eq_refl eq_refl) as [Hgen Hstore].
  split; [exact Hgen|]. exact (proj2 (Hstore eq_refl)).
Defined.

(** C10 on a run: the model answers with the empty array; the warning is
    shown and nothing is written. *)
Lemma empty_array_reply_warns_witness :
  answers "[]" (request_for (messages first_request)) = "[]"
  /\ decode "[]" = inr (JArr [])
  /\ run_graph (answers "[]") first_request only_table_2 =
       Ret {| messages := messages first_request; generated_data := JArr [] |}
           (add_events [StWarning "No data to store in DB"]
                       (add_events [asked_first] only_table_2)).
Proof.
  split; [reflexivity|]. split; [reflexivity|].
  apply (empty_array_reply_warns (answers "[]") decode rows_frame row_count
           sqlite_store first_request only_table_2 eq_refl eq_refl).
Defined.

(** C2, amended, on a run: three runs of the graph from the empty
    database, the second of which writes nothing; no write raises. *)
Lemma sequential_writes_are_numbered_witness :
  replaces_table sqlite_store
  /\ (forall j, size (db fresh) < j -> no_table_named (table_name_of j) (db fresh))
  /\ failed_writes (trace (invoke_all decode rows_frame row_count sqlite_store
                                      three_calls fresh))
     = failed_writes (trace fresh)
  /\ exists m,
       written_tables (trace (invoke_all decode rows_frame row_count sqlite_store
                                         three_calls fresh)) =
         written_tables (trace fresh) ++ map table_name_of (seq (S (size (db fresh))) m)
       /\ (forall n, n < m ->
             written_tables (trace (invoke_all decode rows_frame row_count sqlite_store
                                               three_calls fresh))
               !! (length (written_tables (trace fresh)) + n)
             = Some (table_name_of (size (db fresh) + S n)))
       /\ size (db (invoke_all decode rows_frame row_count sqlite_store
                               three_calls fresh)) =
          size (db fresh) + m.
Proof.
  assert (Hfree : forall j, size (db fresh) < j ->
                            no_table_named (table_name_of j) (db fresh)).
  { intros j _ other _. reflexivity. }
  assert (Hnofail : failed_writes (trace (invoke_all decode rows_frame row_count
                                            sqlite_store three_calls fresh))
                    = failed_writes (trace fresh)).
  { vm_compute. reflexivity. }
  split; [exact sqlite_store_replaces|]. split; [exact Hfree|].
  split; [exact Hnofail|].
  exact (sequential_writes_are_numbered decode rows_frame row_count sqlite_store
           three_calls fresh sqlite_store_replaces Hfree Hnofail).
Defined.

(** C2 as stated fails: the database holds one table, [table_2]; two runs
    of the graph store an array each; the second write is named [table_2]
    again, not [table_3], and the database still holds one table. *)
Lemma second_write_reuses_name :
  size (db only_table_2) = 1
  /\ written_tables (trace (invoke_all decode rows_frame row_count sqlite_store
                                       two_calls only_table_2))
     = [table_name_of (1 + 1); table_name_of 2]
  /\ table_name_of 2 <> table_name_of (1 + 2)
  /\ size (db (invoke_all decode rows_frame row_count sqlite_store
                          two_calls only_table_2)) = 1.
Proof.
  split; [reflexivity|]. split; [vm_compute; reflexivity|].
  split; [|vm_compute; reflexivity].
  intros H. apply table_name_of_inj in H. discriminate H.
Qed.

(** A write that raises shifts the numbering: from the empty database the
    first write raises and leaves [table_1] behind, so the first write
    that completes is named [table_2]. *)
Lemma failed_write_shifts_numbering :
  size (db fresh) = 0
  /\ failed_writes (trace (invoke_all decode rows_frame row_count sqlite_store
                                      failing_then_fine fresh)) = ["table_1"]
  /\ written_tables (trace (invoke_all decode rows_frame row_count sqlite_store
                                       failing_then_fine fresh)) = ["table_2"]
  /\ size (db (invoke_all decode rows_frame row_count sqlite_store
                          failing_then_fine fresh)) = 2.
Proof. repeat split; vm_compute; reflexivity. Qed.

(** C6 as stated fails: the button is pressed while the text input is
    empty; the history has the one entry it had before. *)
Lemma empty_submit_adds_nothing :
  pressed empty_submit = true
  /\ history_of (session decode rows_frame row_count sqlite_store
                         [empty_submit] one_request_made)
     = history_of one_request_made
  /\ length (history_of (session decode rows_frame row_count sqlite_store
                                  [empty_submit] one_request_made))
     <> length (history_of one_request_made) + 1.
Proof.
  split; [reflexivity|]. split; [vm_compute; reflexivity|].
  vm_compute. discriminate.
Qed.

End Concrete.

(** * The script as a whole *)

(** ** The shape of a run *)

Section Walk.

Context {Frame : Type}.
Variable json_loads : string -> exn + json.
Variable build_frame : json -> exn + Frame.
Variable df_len : Frame -> nat.
Variable pandas_to_sql :
  string -> if_exists -> bool -> Frame -> gmap string Frame -> sql_result Frame.

Implicit Types (w : World Frame) (llm : list chat_message -> string).

Local Abbreviation invoke llm :=
  (compiled_graph_invoke llm json_loads build_frame df_len pandas_to_sql).
Local Abbreviation run llm := (script llm json_loads build_frame df_len pandas_to_sql).
Local Abbreviation session := (session json_loads build_frame df_len pandas_to_sql).
Local Abbreviation write name df d := (pandas_to_sql name IfReplace false df d).
Local Abbreviation next_name w := (table_name_of (size (db w) + 1)).

Lemma bind_assoc {A B C} (m : M Frame A) (k : A -> M Frame B) (h : B -> M Frame C) w :
  bind (bind m k) h w = bind m (fun a => bind (k a) h) w.
Proof. unfold bind. by destruct (m w). Qed.

Lemma bind_returns {A B} (m : M Frame A) (k : A -> M Frame B) w a w1 :
  m w = Ret a w1 -> bind m k w = k a w1.
Proof. intros H. unfold bind. by rewrite H. Qed.

Lemma bind_raises {A B} (m : M Frame A) (k : A -> M Frame B) w e w1 :
  m w = Raise e w1 -> bind m k w = Raise e w1.
Proof. intros H. unfold bind. by rewrite H. Qed.

Lemma world_of_bind {A B} (m : M Frame A) (k : A -> M Frame B) w :
  world_of (bind m k w) =
  match m w with
  | Ret a w1 => world_of (k a w1)
  | Raise _ w1 => w1
  end.
Proof. unfold bind. by destruct (m w). Qed.

Lemma user_request_snoc (history : list string) (prompt : string) :
  user_request (history ++ [prompt]) = prompt.
Proof. by rewrite user_request_last, last_snoc. Qed.

Lemma elem_of_table_names (d : gmap string Frame) (name : string) :
  name ∈ table_names d <-> is_Some (d !! name).
Proof.
  unfold table_names. rewrite merge_sort_Permutation, list_elem_of_fmap. split.
  - intros ([k df] & -> & Hin). apply elem_of_map_to_list in Hin. by exists df.
  - intros [df Hdf]. exists (name, df). split; [done|].
    by apply elem_of_map_to_list.
Qed.

Lemma show_tables_eq w :
  show_tables w =
  Ret tt (add_events [StSubheader "Existing Tables in DB";
                      StWrite (table_names (db w))] w).
Proof.
  unfold show_tables, bind, emit, get_table_names. simpl.
  by rewrite add_events_app.
Qed.

Lemma show_generated_falsy (output : AppState) w :
  truthy (generated_data output) = false ->
  show_generated build_frame output w = Ret tt w.
Proof. intros H. unfold show_generated. by rewrite H. Qed.

Lemma show_generated_built (output : AppState) w df :
  truthy (generated_data output) = true ->
  pd_DataFrame build_frame (generated_data output) w = Ret df w ->
  show_generated build_frame output w =
  Ret tt (add_events [StSubheader "Generated Data"; StDataframe df] w).
Proof.
  intros Ht Hdf. apply pd_DataFrame_ret in Hdf as (Hs & Hb & _).
  unfold show_generated, bind, emit, pd_DataFrame. rewrite Ht, Hs, Hb. simpl.
  by rewrite add_events_app.
Qed.

(** A rerun in which nothing is submitted goes from the title straight to
    the list of tables. *)
Lemma script_idle_eq llm prompt clicked w :
  clicked && negb (String.eqb prompt EmptyString) = false ->
  run llm prompt clicked w = show_tables (opened w).
Proof.
  intros Hidle.
  assert (Hskip : (if clicked
                   then on_button llm json_loads build_frame df_len pandas_to_sql prompt
                   else ret tt) = ret (Frame:=Frame) tt).
  { destruct clicked; [|done]. simpl in Hidle. unfold on_button. by rewrite Hidle. }
  unfold script. rewrite Hskip.
  unfold bind, emit, session_init, ret, opened, history_of, add_events; simpl.
  by destruct (session_messages w).
Qed.

(** A rerun in which a request is submitted runs the graph on the history
    that ends with the request, then shows the records and the tables. *)
Lemma script_submitted_eq llm prompt w :
  negb (String.eqb prompt EmptyString) = true ->
  run llm prompt true w =
  bind (invoke llm (inputs_for prompt w))
       (fun output => bind (show_generated build_frame output) (fun _ => show_tables))
       (started prompt w).
Proof.
  intros Hne. unfold script, on_button. rewrite Hne.
  unfold bind at 1. unfold emit at 1. unfold bind at 1.
  unfold session_init, inputs_for, started, history_of, add_events; simpl.
  destruct (session_messages w) as [history|]; simpl.
  - rewrite bind_assoc. unfold bind at 1. unfold session_append at 1. simpl.
    rewrite bind_assoc. unfold bind at 1. unfold session_get at 1. simpl.
    by rewrite bind_assoc.
  - rewrite bind_assoc. unfold bind at 1. unfold session_append at 1. simpl.
    rewrite bind_assoc. unfold bind at 1. unfold session_get at 1. simpl.
    by rewrite bind_assoc.
Qed.

(** ** What a run adds to the trace and to the database *)

(** The frame constructor changes nothing in the world. *)
Lemma pd_DataFrame_cases data w :
  (exists e, pd_DataFrame build_frame data w = Raise e w)
  \/ (exists df, pd_DataFrame build_frame data w = Ret df w).
Proof.
  unfold pd_DataFrame, raise, ret. destruct (is_scalar data); [left; by eexists|].
  destruct (build_frame data); [left|right]; by eexists.
Qed.

(** The two displays after the graph only add display events. *)
Lemma display_effect (output : AppState) w :
  exists evs,
    world_of (bind (show_generated build_frame output) (fun _ => show_tables) w)
      = add_events evs w
    /\ llm_calls evs = []
    /\ written_tables evs = []
    /\ failed_writes evs = [].
Proof.
  unfold bind. destruct (truthy (generated_data output)) eqn:Ht.
  - destruct (pd_DataFrame_cases (generated_data output)
                (add_events [StSubheader "Generated Data"] w)) as [[e He]|[df Hdf]].
    + exists [StSubheader "Generated Data"].
      unfold show_generated, bind, emit. rewrite Ht. simpl. by rewrite He.
    + exists [StSubheader "Generated Data"; StDataframe df;
              StSubheader "Existing Tables in DB"; StWrite (table_names (db w))].
      unfold show_generated, bind, emit. rewrite Ht. simpl. rewrite Hdf.
      rewrite show_tables_eq. simpl. by rewrite !add_events_app.
  - rewrite show_generated_falsy by done. rewrite show_tables_eq. by eexists.
Qed.

(** One rerun of the script: a request to the model exactly when something
    is submitted, carrying the text input; at most one call of [to_sql],
    and only when something is submitted. *)
Lemma script_effect llm prompt clicked w :
  let go := clicked && negb (String.eqb prompt EmptyString) in
  let w' := world_of (run llm prompt clicked w) in
  exists evs,
    trace w' = trace w ++ evs
    /\ llm_calls evs =
         (if go then [[SystemMessage system_prompt; HumanMessage prompt]] else [])
    /\ ((db w' = db w /\ written_tables evs = [] /\ failed_writes evs = [])
        \/ (go = true /\ exists df after,
              write (next_name w) df (db w) = SqlOk after
              /\ db w' = after
              /\ written_tables evs = [next_name w] /\ failed_writes evs = [])
        \/ (go = true /\ exists df e after,
              write (next_name w) df (db w) = SqlError e after
              /\ db w' = after
              /\ written_tables evs = [] /\ failed_writes evs = [next_name w])).
Proof.
  intros go w'. subst w'. destruct go eqn:Hgo; subst go.
  - apply andb_prop in Hgo as [-> Hne]. rewrite (script_submitted_eq _ _ _ Hne).
    destruct (invoke_effect json_loads build_frame df_len pandas_to_sql
                llm (inputs_for prompt w) (started prompt w))
      as (evs & Htr & _ & Hcalls & Hdb).
    rewrite world_of_bind.
    destruct (invoke llm (inputs_for prompt w) (started prompt w))
      as [output w1|e w1] eqn:Hrun; simpl in Htr, Hdb |- *.
    + destruct (display_effect output w1) as (evs2 & -> & Hc2 & Hw2 & Hf2).
      exists (StTitle page_title :: evs ++ evs2). simpl.
      rewrite Htr, llm_calls_app, written_tables_app, failed_writes_app,
        Hc2, Hw2, Hf2, !app_nil_r.
      rewrite Hcalls. unfold request_for. simpl. rewrite user_request_snoc.
      split; [by rewrite <- !app_assoc|]. split; [done|].
      destruct Hdb as [Hdb|[(df & after & Hdb)|(df & e & after & Hdb)]];
        [left|right; left|right; right]; [done| |].
      * split; [done|]. by exists df, after.
      * split; [done|]. exists df, e, after. by destruct Hdb as (? & ? & ? & ? & _).
    + exists (StTitle page_title :: evs). simpl.
      rewrite Htr, Hcalls. unfold request_for. simpl. rewrite user_request_snoc.
      split; [by rewrite <- !app_assoc|]. split; [done|].
      destruct Hdb as [Hdb|[(df & after & Hdb)|(df & e' & after & Hdb)]];
        [left|right; left|right; right]; [done| |].
      * split; [done|]. by exists df, after.
      * split; [done|]. exists df, e', after. by destruct Hdb as (? & ? & ? & ? & _).
  - rewrite (script_idle_eq _ _ _ _ Hgo), show_tables_eq. simpl.
    eexists. split; [by rewrite <- app_assoc|]. split; [done|]. by left.
Qed.

End Walk.

(** ** Properties of whole runs and sessions *)

Section Whole.

Context {Frame : Type}.
Variable json_loads : string -> exn + json.
Variable build_frame : json -> exn + Frame.
Variable df_len : Frame -> nat.
Variable pandas_to_sql :
  string -> if_exists -> bool -> Frame -> gmap string Frame -> sql_result Frame.

Implicit Types (w : World Frame) (llm : list chat_message -> string).

Local Abbreviation invoke llm :=
  (compiled_graph_invoke llm json_loads build_frame df_len pandas_to_sql).
Local Abbreviation invoke_all := (invoke_all json_loads build_frame df_len pandas_to_sql).
Local Abbreviation run llm := (script llm json_loads build_frame df_len pandas_to_sql).
Local Abbreviation session := (session json_loads build_frame df_len pandas_to_sql).
Local Abbreviation write name df d := (pandas_to_sql name IfReplace false df d).
Local Abbreviation next_name w := (table_name_of (size (db w) + 1)).

(** X1: a rerun in which nothing is submitted (the button is not pressed,
    or the text input is empty) returns; it shows the title and the list
    of the tables of the database, and does nothing else: no request to
    the model, no write, the history as it was. *)
Theorem idle_rerun_only_displays llm prompt clicked w :
  clicked && negb (String.eqb prompt EmptyString) = false ->
  run llm prompt clicked w =
    Ret tt (mkWorld (db w) (Some (history_of w))
              (trace w ++ [StTitle page_title;
                           StSubheader "Existing Tables in DB";
                           StWrite (table_names (db w))])).
Proof.
  intros Hidle. rewrite (script_idle_eq _ _ _ _ _ _ _ _ Hidle), show_tables_eq.
  unfold add_events, opened; simpl. by rewrite <- app_assoc.
Qed.

(** X2: over a session the model is asked exactly once per submitted
    request, in order, with the system prompt and the text of that request
    as the user message: never on a rerun without submit, never twice for
    one submit, and never with the default request. *)
Theorem model_asked_once_per_submit runs w :
  llm_calls (trace (session runs w)) =
  llm_calls (trace w) ++
    map (fun i => [SystemMessage system_prompt; HumanMessage (typed i)])
        (filter (fun i => submits i = true) runs).
Proof.
  revert w. induction runs as [|i runs IH]; intros w.
  - simpl. by rewrite app_nil_r.
  - rewrite (session_cons json_loads build_frame df_len pandas_to_sql), IH.
    destruct (script_effect json_loads build_frame df_len pandas_to_sql
                (reply i) (typed i) (pressed i) w) as (evs & Htr & Hcalls & _).
    rewrite Htr, llm_calls_app, Hcalls, filter_cons.
    fold (submits i). destruct (submits i) eqn:Hgo.
    + rewrite decide_True by done. simpl. by rewrite <- app_assoc.
    + rewrite decide_False by done. by rewrite app_nil_r.
Qed.

(** X3: one run of the graph touches the database through at most one
    call of [to_sql], a replace under the name computed from the number of
    tables: the database is as it was, or it is what that call left.  When
    the run returns and a completed replace does what it has to, every
    table whose name differs from the computed name, even without regard
    to case, is as it was. *)
Theorem graph_touches_one_table llm inputs w :
  (db (world_of (invoke llm inputs w)) = db w
   \/ exists df,
        db (world_of (invoke llm inputs w)) = left_by (write (next_name w) df (db w)))
  /\ (replaces_table pandas_to_sql ->
      forall output w',
        invoke llm inputs w = Ret output w' ->
        forall other, ~ same_table other (next_name w) ->
                      db w' !! other = db w !! other).
Proof.
  destruct (invoke_effect json_loads build_frame df_len pandas_to_sql llm inputs w)
    as (evs & _ & _ & _ & [(Hdb & _)|[(df & after & Hok & Hdb & _)
                                     |(df & e & after & Herr & Hdb & _ & _ & Hraise)]]).
  - split; [by left|]. intros _ output w' Hret other _.
    rewrite Hret in Hdb. simpl in Hdb. by rewrite Hdb.
  - split; [right; exists df; by rewrite Hok|].
    intros Hc output w' Hret other Hother.
    rewrite Hret in Hdb. simpl in Hdb. rewrite Hdb.
    by apply (Hc _ _ _ _ _ Hok).
  - split; [right; exists df; by rewrite Herr|].
    intros _ output w' Hret. by rewrite Hret in Hraise.
Qed.

(** X4: over a session there is at most one call of [to_sql] per submitted
    request and none otherwise: the writes that completed and the writes
    that raised together never outnumber the submitted requests. *)
Theorem at_most_one_write_per_submit runs w :
  length (written_tables (trace (session runs w)))
  + length (failed_writes (trace (session runs w)))
  <= length (written_tables (trace w)) + length (failed_writes (trace w))
     + length (filter (fun i => submits i = true) runs).
Proof.
  revert w. induction runs as [|i runs IH]; intros w.
  - simpl. lia.
  - rewrite (session_cons json_loads build_frame df_len pandas_to_sql).
    specialize (IH (world_of (run (reply i) (typed i) (pressed i) w))).
    destruct (script_effect json_loads build_frame df_len pandas_to_sql
                (reply i) (typed i) (pressed i) w) as (evs & Htr & _ & Hdb).
    rewrite Htr, written_tables_app, failed_writes_app, !length_app in IH.
    rewrite filter_cons. fold (submits i).
    destruct Hdb as [(_ & Hwr & Hfl)|[(Hgo & df & after & _ & _ & Hwr & Hfl)
                                     |(Hgo & df & e & after & _ & _ & Hwr & Hfl)]];
      rewrite Hwr, Hfl in IH; simpl in IH.
    + case_decide; simpl; lia.
    + fold (submits i) in Hgo. rewrite decide_True by done. simpl. lia.
    + fold (submits i) in Hgo. rewrite decide_True by done. simpl. lia.
Qed.

(** The reply to the request the front end makes for a submit. *)
Local Abbreviation reply_to llm prompt w :=
  (llm (request_for (history_of w ++ [prompt]))).
Local Abbreviation asked_for prompt w :=
  (LlmCall (Frame:=Frame) (request_for (history_of w ++ [prompt]))).

(** X5: a submitted request whose reply decodes to records from which a
    frame is built, and whose write completes, returns; the frame is
    given to [to_sql] under the name computed from the number of tables,
    the success message names the row count and the table, the frame
    shown under [Generated Data] is the frame that was written, and the
    list of tables shown at the end is the list of the database the write
    left; when a completed replace does what it has to, that list holds
    the new name. *)
Theorem submitted_records_are_stored_and_shown llm prompt w data df after :
  negb (String.eqb prompt EmptyString) = true ->
  json_loads (reply_to llm prompt w) = inr data ->
  truthy (records_of data) = true ->
  is_scalar (records_of data) = false ->
  build_frame (records_of data) = inr df ->
  write (next_name w) df (db w) = SqlOk after ->
  run llm prompt true w =
    Ret tt (mkWorld after
              (Some (history_of w ++ [prompt]))
              (trace w ++
                 [StTitle page_title;
                  asked_for prompt w;
                  ToSql (next_name w) df;
                  StSuccess ("✅ Stored " +:+ pretty (df_len df) +:+
                             " records in table: " +:+ next_name w);
                  StSubheader "Generated Data";
                  StDataframe df;
                  StSubheader "Existing Tables in DB";
                  StWrite (table_names after)]))
  /\ (replaces_table pandas_to_sql -> next_name w ∈ table_names after).
Proof.
  intros Hne Hdec Ht Hs Hb Hok. split.
  - rewrite (script_submitted_eq _ _ _ _ _ _ _ Hne).
    assert (Hsyn := synthesize_data_decoded llm json_loads
                      (inputs_for (Frame:=Frame) prompt w) (started prompt w) data Hdec).
    fold (records_of data) in Hsyn.
    erewrite bind_returns; cycle 1.
    { rewrite (invoke_after_synthesize _ _ build_frame df_len pandas_to_sql _ _ _ _ Hsyn).
      by apply (manage_db_stores build_frame df_len pandas_to_sql _ _ df after). }
    erewrite bind_returns; cycle 1.
    { apply (show_generated_built build_frame _ _ df); [done|].
      apply pd_DataFrame_ret. split; [exact Hs|]. split; [exact Hb|reflexivity]. }
    rewrite show_tables_eq.
    unfold add_events, stored, store_events, started; simpl.
    by rewrite <- !app_assoc.
  - intros Hc. apply elem_of_table_names.
    destruct (Hc _ _ _ _ _ Hok) as (Hname & _). by eexists.
Qed.

(** X6: a submitted request whose reply decodes to truthy records that the
    frame constructor refuses ends with the exception of the constructor:
    the run is aborted after the request to the model, the request stays
    in the history, the database is as it was, and neither the records nor
    the list of tables are shown. *)
Theorem refused_records_abort_the_run llm prompt w data e :
  negb (String.eqb prompt EmptyString) = true ->
  json_loads (reply_to llm prompt w) = inr data ->
  truthy (records_of data) = true ->
  pd_DataFrame build_frame (records_of data) w = Raise e w ->
  run llm prompt true w =
    Raise e (mkWorld (db w)
               (Some (history_of w ++ [prompt]))
               (trace w ++ [StTitle page_title; asked_for prompt w])).
Proof.
  intros Hne Hdec Ht Hraise.
  rewrite (script_submitted_eq _ _ _ _ _ _ _ Hne).
  assert (Hsyn := synthesize_data_decoded llm json_loads
                    (inputs_for (Frame:=Frame) prompt w) (started prompt w) data Hdec).
  fold (records_of data) in Hsyn.
  assert (Hstore : forall w0,
             manage_db build_frame df_len pandas_to_sql
               {| messages := messages (inputs_for (Frame:=Frame) prompt w);
                  generated_data := records_of data |} w0 = Raise e w0).
  { intros w0. unfold pd_DataFrame, raise, ret in Hraise.
    destruct (is_scalar (records_of data)) eqn:Hs.
    - injection Hraise as <-. by apply manage_db_scalar.
    - destruct (build_frame (records_of data)) as [e'|df] eqn:Hb; [|done].
      injection Hraise as <-. by apply manage_db_refused. }
  erewrite bind_raises; cycle 1.
  { rewrite (invoke_after_synthesize _ _ build_frame df_len pandas_to_sql _ _ _ _ Hsyn).
    apply Hstore. }
  unfold add_events, started; simpl. by rewrite <- app_assoc.
Qed.

(** X7: a submitted request whose reply is not valid JSON returns: the
    error and the no-data warning are shown, nothing is stored, no records
    are shown, and the list of tables shown is the list of the unchanged
    database. *)
Theorem undecodable_reply_is_reported llm prompt w msg :
  negb (String.eqb prompt EmptyString) = true ->
  json_loads (reply_to llm prompt w) = inl (JSONDecodeError msg) ->
  run llm prompt true w =
    Ret tt (mkWorld (db w)
              (Some (history_of w ++ [prompt]))
              (trace w ++
                 [StTitle page_title;
                  asked_for prompt w;
                  StError "AI did not return valid JSON structured data.";
                  StWarning "No data to store in DB";
                  StSubheader "Existing Tables in DB";
                  StWrite (table_names (db w))])).
Proof.
  intros Hne Hdec.
  rewrite (script_submitted_eq _ _ _ _ _ _ _ Hne).
  assert (Hsyn := synthesize_data_undecoded llm json_loads
                    (inputs_for (Frame:=Frame) prompt w) (started prompt w) msg Hdec).
  erewrite bind_returns; cycle 1.
  { rewrite (invoke_after_synthesize _ _ build_frame df_len pandas_to_sql _ _ _ _ Hsyn).
    by apply manage_db_falsy. }
  erewrite bind_returns; cycle 1.
  { by apply show_generated_falsy. }
  rewrite show_tables_eq.
  unfold add_events, started; simpl. by rewrite <- !app_assoc.
Qed.

(** X8: whatever the generation node returns as [generated_data] is never
    a bare object: the storage node is never given a dict. *)
Theorem generated_data_is_never_a_dict llm (state : AppState) w output w' :
  synthesize_data llm json_loads state w = Ret output w' ->
  is_dict (generated_data output) = false.
Proof.
  intros Hret.
  destruct (json_loads (llm (request_for (messages state)))) as [e|data] eqn:Hdec.
  - destruct (is_json_decode_error e) eqn:He.
    + apply json_decode_error_inv in He as [msg ->].
      rewrite (synthesize_data_undecoded _ _ _ _ _ Hdec) in Hret.
      by injection Hret as <- _.
    + by rewrite (synthesize_data_uncaught _ _ _ _ _ Hdec He) in Hret.
  - rewrite (synthesize_data_decoded _ _ _ _ _ Hdec) in Hret.
    injection Hret as <- _. simpl. by destruct data.
Qed.

(** X9: when a run of the script returns, the last thing it shows is the
    list of the tables of the database as the run leaves it. *)
Theorem shown_tables_are_current llm prompt clicked w w' :
  run llm prompt clicked w = Ret tt w' ->
  exists evs, trace w' = evs ++ [StWrite (table_names (db w'))].
Proof.
  assert (Hend : forall w1 w2, show_tables w1 = Ret tt w2 ->
            exists evs, trace w2 = evs ++ [StWrite (table_names (db w2))]).
  { intros w1 w2. rewrite show_tables_eq. intros [= <-].
    exists (trace w1 ++ [StSubheader "Existing Tables in DB"]). simpl.
    by rewrite <- app_assoc. }
  destruct (clicked && negb (String.eqb prompt EmptyString)) eqn:Hgo.
  - apply andb_prop in Hgo as [-> Hne].
    rewrite (script_submitted_eq _ _ _ _ _ _ _ Hne). unfold bind.
    destruct (invoke llm _ _) as [output w1|]; [|done].
    destruct (show_generated build_frame output w1) as [[] w2|]; [|done].
    apply Hend.
  - rewrite (script_idle_eq _ _ _ _ _ _ _ _ Hgo). apply Hend.
Qed.

(** X10: when the name computed from the number of tables is the name of
    a table that exists, in that spelling only, and no write raises, every
    write of a sequence of runs of the graph goes to that same table, and
    the number and the names of the tables stay the same. *)
Theorem taken_name_is_reused_forever calls w :
  replaces_table pandas_to_sql ->
  is_Some (db w !! next_name w) ->
  (forall other, same_table other (next_name w) -> other <> next_name w ->
                 db w !! other = None) ->
  failed_writes (trace (invoke_all calls w)) = failed_writes (trace w) ->
  exists m,
    written_tables (trace (invoke_all calls w)) =
      written_tables (trace w) ++ replicate m (next_name w)
    /\ size (db (invoke_all calls w)) = size (db w)
    /\ (forall name, is_Some (db (invoke_all calls w) !! name) <->
                     is_Some (db w !! name)).
Proof.
  intros Hc. revert w. induction calls as [|call calls IH];
    intros w Htaken Hone Hnofail.
  - exists 0. simpl. by rewrite app_nil_r.
  - apply (no_failed_write_cons json_loads build_frame df_len pandas_to_sql)
      in Hnofail as [Hfirst Hrest].
    rewrite (invoke_all_cons json_loads build_frame df_len pandas_to_sql).
    destruct (invoke_effect json_loads build_frame df_len pandas_to_sql
                (fst call) (snd call) w) as (evs & Htr & _ & _ & Hdb).
    set (w1 := world_of (invoke (fst call) (snd call) w)) in *.
    assert (Hsame : (db w1 = db w /\ written_tables evs = [])
                    \/ (exists df, db w1 = <[next_name w := df]> (db w)
                                   /\ written_tables evs = [next_name w])).
    { destruct Hdb as [(Hdb & Hwr & _)|[(df & after & Hok & Hdb & Hwr & _)
                                       |(df & e & after & _ & _ & _ & Hfl & _)]].
      - by left.
      - right. exists df. split; [|done]. rewrite Hdb.
        by apply (replace_of_taken_name pandas_to_sql _ false).
      - rewrite Htr, failed_writes_app, Hfl in Hfirst.
        rewrite <- (app_nil_r (failed_writes (trace w))) in Hfirst at 2.
        by apply app_inv_head in Hfirst. }
    assert (Hkeep : size (db w1) = size (db w)
                    /\ forall name, is_Some (db w1 !! name) <-> is_Some (db w !! name)).
    { destruct Hsame as [[-> _]|(df & -> & _)]; [done|]. split.
      - by apply map_size_insert_Some.
      - intros name. rewrite lookup_insert. case_decide as Heq; [|done].
        subst name. split; [done|]. by eexists. }
    destruct Hkeep as [Hsize Hdom].
    destruct (IH w1) as (m & Hm & Hsz & Hnames).
    { rewrite Hsize. by apply Hdom. }
    { rewrite Hsize. intros other Hs Hne.
      destruct (db w1 !! other) eqn:Hl; [|done].
      assert (Hin : is_Some (db w !! other)) by (apply Hdom; by eexists).
      rewrite (Hone other Hs Hne) in Hin. by destruct Hin. }
    { done. }
    rewrite Hsize in Hm. rewrite Htr, written_tables_app in Hm.
    destruct Hsame as [[_ Hwr]|(df & _ & Hwr)]; rewrite Hwr in Hm.
    + exists m. rewrite Hm, app_nil_r. split; [done|]. split; [lia|].
      intros name. by rewrite Hnames, Hdom.
    + exists (S m). rewrite Hm, <- app_assoc. split; [done|]. split; [lia|].
      intros name. by rewrite Hnames, Hdom.
Qed.

End Whole.

(** X11: two table names are the same only for the same ordinal. *)
Theorem table_names_differ_by_ordinal (i j : nat) :
  table_name_of i = table_name_of j <-> i = j.
Proof.
  split; [|by intros ->]. unfold table_name_of. intros H.
  apply (inj (String.append "table_")) in H. by apply (inj pretty) in H.
Qed.

(** ** Whole runs on concrete inputs *)

Section ConcreteRuns.

Import JsonText Demo.

Local Abbreviation run_script i :=
  (script (reply i) decode rows_frame row_count sqlite_store (typed i) (pressed i)).

(** X1 on a run: typing without pressing the button, on a database of one
    table. *)
Lemma idle_rerun_only_displays_witness :
  pressed typing_only && negb (String.eqb (typed typing_only) EmptyString) = false
  /\ run_script typing_only only_table_2 =
       Ret tt (mkWorld (db only_table_2) (Some (history_of only_table_2))
                 (trace only_table_2 ++
                    [StTitle page_title;
                     StSubheader "Existing Tables in DB";
                     StWrite (table_names (db only_table_2))])).
Proof.
  split; [reflexivity|].
  apply (idle_rerun_only_displays decode rows_frame row_count sqlite_store
           (reply typing_only) (typed typing_only) (pressed typing_only)
           only_table_2 eq_refl).
Defined.

(** X3 on a run: two orders are stored on a database that holds [users]
    and [table_1]; the run returns and [users] is as it was. *)
Lemma graph_touches_one_table_witness :
  replaces_table sqlite_store
  /\ compiled_graph_invoke (answers two_orders_text) decode rows_frame row_count
       sqlite_store first_request users_and_table_1
     = Ret {| messages := messages first_request; generated_data := JArr two_orders |}
           (world_of (compiled_graph_invoke (answers two_orders_text) decode rows_frame
                        row_count sqlite_store first_request users_and_table_1))
  /\ ~ same_table "users" (table_name_of (size (db users_and_table_1) + 1))
  /\ db (world_of (compiled_graph_invoke (answers two_orders_text) decode rows_frame
                     row_count sqlite_store first_request users_and_table_1))
       !! "users"
     = db users_and_table_1 !! "users".
Proof.
  assert (Hret : compiled_graph_invoke (answers two_orders_text) decode rows_frame
                   row_count sqlite_store first_request users_and_table_1
                 = Ret {| messages := messages first_request;
                          generated_data := JArr two_orders |}
                       (world_of (compiled_graph_invoke (answers two_orders_text) decode
                                    rows_frame row_count sqlite_store first_request
                                    users_and_table_1))).
  { reflexivity. }
  assert (Hother : ~ same_table "users"
                     (table_name_of (size (db users_and_table_1) + 1))).
  { discriminate. }
  split; [exact sqlite_store_replaces|]. split; [exact Hret|]. split; [exact Hother|].
  exact (proj2 (graph_touches_one_table decode rows_frame row_count sqlite_store
                  (answers two_orders_text) first_request users_and_table_1)
               sqlite_store_replaces _ _ Hret "users" Hother).
Defined.

(** X5 on a run: two orders are requested on an empty database and end up
    in [table_1], which the list of tables then holds. *)
Lemma submitted_records_are_stored_and_shown_witness :
  negb (String.eqb (typed submit_two_orders) EmptyString) = true
  /\ decode (reply submit_two_orders
               (request_for (history_of fresh ++ [typed submit_two_orders])))
     = inr (JArr two_orders)
  /\ sqlite_store (table_name_of (size (db fresh) + 1)) IfReplace false
                  two_orders (db fresh)
     = SqlOk {[ "table_1" := two_orders ]}
  /\ db (world_of (run_script submit_two_orders fresh)) = {[ "table_1" := two_orders ]}
  /\ table_name_of (size (db fresh) + 1) ∈
       table_names ({[ "table_1" := two_orders ]} : gmap string Rows).
Proof.
  assert (Hok : sqlite_store (table_name_of (size (db fresh) + 1)) IfReplace false
                             two_orders (db fresh)
                = SqlOk {[ "table_1" := two_orders ]}).
  { vm_compute. reflexivity. }
  split; [reflexivity|]. split; [reflexivity|]. split; [exact Hok|].
  destruct (submitted_records_are_stored_and_shown decode rows_frame row_count
              sqlite_store (reply submit_two_orders) (typed submit_two_orders) fresh
              (JArr two_orders) two_orders _
              eq_refl eq_refl eq_refl eq_refl eq_refl Hok)
    as [Hrun Hin].
  split; [|exact (Hin sqlite_store_replaces)].
  change (run_script submit_two_orders fresh)
    with (script (reply submit_two_orders) decode rows_frame row_count sqlite_store
                 (typed submit_two_orders) true fresh).
  rewrite Hrun. reflexivity.
Defined.

(** X6 on a run: the model answers with the number 5; the run is aborted
    and the request stays in the history. *)
Lemma refused_records_abort_the_run_witness :
  negb (String.eqb (typed submit_number) EmptyString) = true
  /\ decode (reply submit_number
               (request_for (history_of only_table_2 ++ [typed submit_number])))
     = inr (JInt 5)
  /\ truthy (records_of (JInt 5)) = true
  /\ pd_DataFrame rows_frame (records_of (JInt 5)) only_table_2
     = Raise (ValueError "DataFrame constructor not properly called!") only_table_2
  /\ script (reply submit_number) decode rows_frame row_count sqlite_store
            (typed submit_number) true only_table_2
     = Raise (ValueError "DataFrame constructor not properly called!")
         (mkWorld (db only_table_2)
            (Some (history_of only_table_2 ++ [typed submit_number]))
            (trace only_table_2 ++
               [StTitle page_title;
                LlmCall (request_for (history_of only_table_2 ++ [typed submit_number]))])).
Proof.
  split; [reflexivity|]. split; [reflexivity|]. split; [reflexivity|].
  split; [reflexivity|].
  apply (refused_records_abort_the_run decode rows_frame row_count sqlite_store
           (reply submit_number) (typed submit_number) only_table_2 (JInt 5)
           (ValueError "DataFrame constructor not properly called!")
           eq_refl eq_refl eq_refl eq_refl).
Defined.

(** X7 on a run: the model answers with prose, on a database of one table. *)
Lemma undecodable_reply_is_reported_witness :
  negb (String.eqb (typed submit_refused) EmptyString) = true
  /\ decode (reply submit_refused
               (request_for (history_of only_table_2 ++ [typed submit_refused])))
     = inl (JSONDecodeError "Expecting value")
  /\ script (reply submit_refused) decode rows_frame row_count sqlite_store
            (typed submit_refused) true only_table_2
     = Ret tt (mkWorld (db only_table_2)
                 (Some (history_of only_table_2 ++ [typed submit_refused]))
                 (trace only_table_2 ++
                    [StTitle page_title;
                     LlmCall (request_for
                                (history_of only_table_2 ++ [typed submit_refused]));
                     StError "AI did not return valid JSON structured data.";
                     StWarning "No data to store in DB";
                     StSubheader "Existing Tables in DB";
                     StWrite (table_names (db only_table_2))])).
Proof.
  split; [reflexivity|]. split; [reflexivity|].
  apply (undecodable_reply_is_reported decode rows_frame row_count sqlite_store
           (reply submit_refused) (typed submit_refused) only_table_2
           "Expecting value" eq_refl eq_refl).
Defined.

(** X8 on a run: the model answers with one order, not in an array; what
    the generation node returns is a list. *)
Lemma generated_data_is_never_a_dict_witness :
  synthesize_data (answers one_order_text) decode first_request fresh
    = Ret {| messages := messages first_request;
             generated_data := JArr [JObj one_order] |}
          (add_events [LlmCall (request_for (messages first_request))]
                      (Frame:=Rows) fresh)
  /\ is_dict (JArr [JObj one_order]) = false.
Proof.
  assert (Hret : synthesize_data (answers one_order_text) decode first_request fresh
                 = Ret {| messages := messages first_request;
                          generated_data := JArr [JObj one_order] |}
                       (add_events [LlmCall (request_for (messages first_request))]
                                   (Frame:=Rows) fresh)).
  { reflexivity. }
  split; [exact Hret|].
  exact (generated_data_is_never_a_dict decode (answers one_order_text)
           first_request fresh _ _ Hret).
Defined.

(** X9 on a run: after two orders were stored on an empty database the
    run ends by showing the list of tables of the database it leaves. *)
Lemma shown_tables_are_current_witness :
  run_script submit_two_orders fresh
    = Ret tt (world_of (run_script submit_two_orders fresh))
  /\ exists evs,
       trace (world_of (run_script submit_two_orders fresh)) =
       evs ++ [StWrite (table_names (db (world_of (run_script submit_two_orders fresh))))].
Proof.
  assert (Hret : run_script submit_two_orders fresh
                 = Ret tt (world_of (run_script submit_two_orders fresh))).
  { reflexivity. }
  split; [exact Hret|].
  exact (shown_tables_are_current decode rows_frame row_count sqlite_store
           (reply submit_two_orders) (typed submit_two_orders)
           (pressed submit_two_orders) fresh _ Hret).
Defined.

(** X10 on a run: the only table is [table_2], which is the computed name;
    two runs that store records both write [table_2], and no write
    raises. *)
Lemma taken_name_is_reused_forever_witness :
  replaces_table sqlite_store
  /\ is_Some (db only_table_2 !! table_name_of (size (db only_table_2) + 1))
  /\ (forall other,
        same_table other (table_name_of (size (db only_table_2) + 1)) ->
        other <> table_name_of (size (db only_table_2) + 1) ->
        db only_table_2 !! other = None)
  /\ failed_writes (trace (invoke_all decode rows_frame row_count sqlite_store
                                      two_calls only_table_2))
     = failed_writes (trace only_table_2)
  /\ exists m,
       written_tables (trace (invoke_all decode rows_frame row_count sqlite_store
                                         two_calls only_table_2)) =
         written_tables (trace only_table_2) ++
           replicate m (table_name_of (size (db only_table_2) + 1))
       /\ size (db (invoke_all decode rows_frame row_count sqlite_store
                               two_calls only_table_2))
          = size (db only_table_2)
       /\ (forall name,
             is_Some (db (invoke_all decode rows_frame row_count sqlite_store
                                     two_calls only_table_2) !! name) <->
             is_Some (db only_table_2 !! name)).
Proof.
  assert (Htaken : is_Some (db only_table_2
                              !! table_name_of (size (db only_table_2) + 1))).
  { exists [JInt 7]. reflexivity. }
  assert (Hone : forall other,
             same_table other (table_name_of (size (db only_table_2) + 1)) ->
             other <> table_name_of (size (db only_table_2) + 1) ->
             db only_table_2 !! other = None).
  { intros other _ Hne. apply lookup_singleton_ne. intros Heq. apply Hne.
    rewrite <- Heq. reflexivity. }
  assert (Hnofail : failed_writes (trace (invoke_all decode rows_frame row_count
                                            sqlite_store two_calls only_table_2))
                    = failed_writes (trace only_table_2)).
  { vm_compute. reflexivity. }
  split; [exact sqlite_store_replaces|]. split; [exact Htaken|].
  split; [exact Hone|]. split; [exact Hnofail|].
  exact (taken_name_is_reused_forever decode rows_frame row_count sqlite_store
           two_calls only_table_2 sqlite_store_replaces Htaken Hone Hnofail).
Defined.

End ConcreteRuns.
